(** * BuscaVetorizada: the Indexador and the Buscador

    A shallow embedding of [src/Indexador.py] (inverted list -> TF-IDF
    model with document norms) and of [src/Buscador.py] (cosine ranking
    of queries against that model), with their configuration files and
    whole runs, and of the loop of [src/GeradorListaInvertida.py] that
    builds the inverted list.

    Python floats are IEEE binary64 numbers: they are Rocq's primitive
    floats, so [+], [*], [/], [sqrt] and the comparisons compute exactly
    what the interpreter computes.  The two libm functions without a
    primitive counterpart, [math.log10] and [x ** 2] (libm [pow]), are
    section variables of the Indexador: its theorems hold for every
    such function.

    Python dictionaries keep insertion order, and every loop of the two
    programs iterates in that order; they are association lists that
    are updated in place. *)

From Stdlib Require Import ZArith List String Ascii Bool Lia Floats Sorted
  Permutation.
Import ListNotations.

Set Implicit Arguments.

(* ================================================================= *)
(** ** Python dictionaries *)

Module PyDict.
Section Dict.
Variables K V : Type.
Variable K_eq_dec : forall x y : K, {x = y} + {x <> y}.

Definition dict := list (K * V).

(** [d.get(k)] *)
Fixpoint get (d : dict) (k : K) : option V :=
  match d with
  | [] => None
  | (k', v) :: d' => if K_eq_dec k k' then Some v else get d' k
  end.

(** [d.get(k, dflt)] *)
Definition get_default (d : dict) (k : K) (dflt : V) : V :=
  match get d k with
  | Some v => v
  | None => dflt
  end.

(** [k in d] *)
Definition contains (d : dict) (k : K) : bool :=
  match get d k with
  | Some _ => true
  | None => false
  end.

(** [d[k] = v]: an existing key keeps its position, a new key goes
    last. *)
Fixpoint set (d : dict) (k : K) (v : V) : dict :=
  match d with
  | [] => [(k, v)]
  | (k', v') :: d' =>
      if K_eq_dec k k' then (k', v) :: d' else (k', v') :: set d' k v
  end.

Definition keys (d : dict) : list K := map fst d.

(** [d[k]] on a [defaultdict]: a missing key is first inserted with
    the factory's value.  The dictionary after the access is returned
    with the value. *)
Definition defaultdict_getitem (factory : V) (d : dict) (k : K)
  : V * dict :=
  match get d k with
  | Some v => (v, d)
  | None => (factory, set d k factory)
  end.
End Dict.
End PyDict.

(* ================================================================= *)
(** ** Numbers *)

Open Scope float_scope.

(** [float(n)] for a Python [int] that is a length or a count.  The
    conversion is exact below 2^53. *)
Definition float_of_nat (n : nat) : float :=
  PrimFloat.of_uint63 (Uint63.of_Z (Z.of_nat n)).

(** [math.sqrt]; its arguments in both programs are lengths and sums of
    squares, never negative, so its [ValueError] is not reachable. *)
Definition math_sqrt (x : float) : float := PrimFloat.sqrt x.

(** [x != x] *)
Definition nao_e_nan (x : float) : Prop := (x =? x) = true.

(* ================================================================= *)
(** ** Exceptions *)

Inductive excecao : Set :=
| StopIteration
| ValueError
| ZeroDivisionError.

Inductive resultado (A : Type) : Type :=
| Ok (a : A)
| Erro (e : excecao).
Arguments Ok {A} a.
Arguments Erro {A} e.

Definition bind {A B : Type} (r : resultado A) (f : A -> resultado B)
  : resultado B :=
  match r with
  | Ok a => f a
  | Erro e => Erro e
  end.

Notation "x <- c1 ;; c2" := (bind c1 (fun x => c2))
  (at level 61, c1 at next level, right associativity).

(** A [for] loop whose body may raise. *)
Fixpoint para_cada {A S : Type} (corpo : S -> A -> resultado S)
  (l : list A) (s : S) : resultado S :=
  match l with
  | [] => Ok s
  | a :: l' => s' <- corpo s a ;; para_cada corpo l' s'
  end.

(** A [for k in d] loop that rewrites the value stored under each key it
    visits: [d[k] = g k d[k]].  The keys are those of the dictionary
    when the loop starts; the loop adds none. *)
Definition para_cada_chave {K V : Type}
  (K_eq_dec : forall x y : K, {x = y} + {x <> y})
  (g : K -> V -> V) (d : PyDict.dict K V) : PyDict.dict K V :=
  fold_left
    (fun d' k =>
       match PyDict.get K_eq_dec d' k with
       | Some v => PyDict.set K_eq_dec d' k (g k v)
       | None => d'
       end)
    (PyDict.keys d) d.

(* ================================================================= *)
(** ** Indexador.py *)

Module Indexador.

(** A record of the inverted-list file as [csv.reader] and
    [ast.literal_eval] deliver it: a term with its list of document
    ids, or a record on which the unpacking or the literal evaluation
    raises. *)
Inductive linha : Type :=
| Linha (palavra : string) (lista_docs : list Z)
| LinhaInvalida.

(** The fields of the object that the pipeline reads and writes. *)
Record estado : Type := mk_estado {
  lista_invertida : PyDict.dict string (list Z);
  documentos : list Z;
  modelo : PyDict.dict string (PyDict.dict Z float);
  normas_documentos : PyDict.dict Z float
}.

(** [__init__] *)
Definition novo : estado :=
  {| lista_invertida := []; documentos := [];
     modelo := []; normas_documentos := [] |}.

(** [conjunto.update(lista)] on a set kept as a duplicate-free list. *)
Definition set_update (conjunto : list Z) (lista : list Z) : list Z :=
  fold_left
    (fun c d => if in_dec Z.eq_dec d c then c else c ++ [d])
    lista conjunto.

(** [len(set(lista))] *)
Definition len_set (lista : list Z) : nat :=
  List.length (nodup Z.eq_dec lista).

Definition carregar_linha (self : estado) (l : linha) : resultado estado :=
  match l with
  | LinhaInvalida => Erro ValueError
  | Linha palavra lista_docs =>
      Ok {| lista_invertida :=
              PyDict.set string_dec (lista_invertida self) palavra lista_docs;
            documentos := set_update (documentos self) lista_docs;
            modelo := modelo self;
            normas_documentos := normas_documentos self |}
  end.

(** The first record is the header, skipped by [next(reader)], which
    raises on an empty file. *)
Definition _carregar_lista_invertida (self : estado) (arquivo : list linha)
  : resultado estado :=
  match arquivo with
  | [] => Erro StopIteration
  | _ :: linhas => para_cada carregar_linha linhas self
  end.

(** [frequencia_termo_doc]: a [defaultdict(int)] counting each id, in
    order of first occurrence. *)
Definition contar (lista_docs : list Z) : PyDict.dict Z nat :=
  fold_left
    (fun f doc =>
       PyDict.set Z.eq_dec f doc (PyDict.get_default Z.eq_dec f doc 0 + 1)%nat)
    lista_docs [].

(** [self.modelo[palavra][doc_id] = peso] on a [defaultdict(dict)]. *)
Definition modelo_set (m : PyDict.dict string (PyDict.dict Z float))
  (palavra : string) (doc : Z) (peso : float)
  : PyDict.dict string (PyDict.dict Z float) :=
  let (pesos, m') := PyDict.defaultdict_getitem string_dec [] m palavra in
  PyDict.set string_dec m' palavra (PyDict.set Z.eq_dec pesos doc peso).

(** The pass over [self.modelo] that sums the squared weights of each
    document into a [defaultdict(float)]. *)
Definition somar_quadrados (quadrado : float -> float)
  (normas : PyDict.dict Z float) (pesos : PyDict.dict Z float)
  : PyDict.dict Z float :=
  fold_left
    (fun n '(doc, peso) =>
       PyDict.set Z.eq_dec n doc
         (PyDict.get_default Z.eq_dec n doc 0 + quadrado peso))
    pesos normas.

Section Pesos.
(** [math.log10], called on [freq >= 1] and on [N / n_i >= 1]. *)
Variable log10 : float -> float.
(** [peso ** 2] *)
Variable quadrado : float -> float.

(** The TF-IDF weight as the body of the loop computes it. *)
Definition peso_tfidf (num_total_documentos num_docs_com_palavra freq : nat)
  : float :=
  let idf :=
    log10 (float_of_nat num_total_documentos
           / float_of_nat num_docs_com_palavra) in
  let tf := 1 + log10 (float_of_nat freq) in
  tf * idf.

(** One iteration of the loop over [self.lista_invertida.items()].
    The integer division raises when the list is empty. *)
Definition pesos_palavra (num_total_documentos : nat)
  (m : PyDict.dict string (PyDict.dict Z float))
  (item : string * list Z)
  : resultado (PyDict.dict string (PyDict.dict Z float)) :=
  let (palavra, lista_docs) := item in
  let num_docs_com_palavra := len_set lista_docs in
  if Nat.eqb num_docs_com_palavra 0 then Erro ZeroDivisionError
  else
    Ok (fold_left
          (fun m' '(doc, freq) =>
             modelo_set m' palavra doc
               (peso_tfidf num_total_documentos num_docs_com_palavra freq))
          (contar lista_docs) m).

(** The row that the loop leaves in the table for a term. *)
Definition linha_do_modelo (num_total_documentos : nat)
  (item : string * list Z) : string * PyDict.dict Z float :=
  (fst item,
   map (fun df =>
          (fst df,
           peso_tfidf num_total_documentos (len_set (snd item)) (snd df)))
     (contar (snd item))).

Definition acumular_normas
  (m : PyDict.dict string (PyDict.dict Z float))
  (normas : PyDict.dict Z float) : PyDict.dict Z float :=
  fold_left (fun n '(_, pesos) => somar_quadrados quadrado n pesos)
    m normas.

Definition _calcular_pesos (self : estado) : resultado estado :=
  let num_total_documentos := List.length (documentos self) in
  if Nat.eqb num_total_documentos 0 then Ok self
  else
    m <- para_cada (pesos_palavra num_total_documentos)
           (lista_invertida self) (modelo self) ;;
    let somas := acumular_normas m (normas_documentos self) in
    Ok {| lista_invertida := lista_invertida self;
          documentos := documentos self;
          modelo := m;
          normas_documentos :=
            para_cada_chave Z.eq_dec (fun _ s => math_sqrt s) somas |}.

(** What [pickle.dump] writes. *)
Record modelo_completo : Type := mk_modelo_completo {
  modelo_tfidf : PyDict.dict string (PyDict.dict Z float);
  normas : PyDict.dict Z float
}.

(** [_salvar_modelo]: the file written, if any. *)
Definition _salvar_modelo (self : estado) : option modelo_completo :=
  match modelo self with
  | [] => None
  | _ :: _ =>
      Some {| modelo_tfidf := modelo self;
              normas := normas_documentos self |}
  end.

(** [executar], with the configuration already read: the model file
    it leaves behind.  An exception of any step is caught and nothing
    is saved. *)
Definition executar (arquivo : list linha) : option modelo_completo :=
  match (s1 <- _carregar_lista_invertida novo arquivo ;;
         _calcular_pesos s1) with
  | Ok s2 => _salvar_modelo s2
  | Erro _ => None
  end.
End Pesos.

(** The inverted list of the data model: every record of the file is a
    term with a non-empty occurrence sequence. *)
Definition linha_valida (l : linha) : bool :=
  match l with
  | Linha _ (_ :: _) => true
  | _ => false
  end.

(** All the document ids of the records, with their repetitions. *)
Definition ids_das_linhas (linhas : list linha) : list Z :=
  flat_map
    (fun l => match l with Linha _ lista_docs => lista_docs
                         | LinhaInvalida => [] end)
    linhas.

(** What the loading loop does to the object when it reads [linhas]
    without error. *)
Record foi_carregado (linhas : list linha) (antes depois : estado) : Prop := {
  car_documentos :
    documentos depois = set_update (documentos antes) (ids_das_linhas linhas);
  car_modelo : modelo depois = modelo antes;
  car_normas : normas_documentos depois = normas_documentos antes;
  car_chaves :
    NoDup (PyDict.keys (lista_invertida antes)) ->
    NoDup (PyDict.keys (lista_invertida depois));
  car_origem :
    forall t lista_docs,
      In (t, lista_docs) (lista_invertida depois) ->
      In (t, lista_docs) (lista_invertida antes)
      \/ In (Linha t lista_docs) linhas;
  car_presente :
    forall t,
      In t (PyDict.keys (lista_invertida antes))
      \/ (exists lista_docs, In (Linha t lista_docs) linhas) ->
      In t (PyDict.keys (lista_invertida depois))
}.

(** The weights of a document over the whole table, in the order of the
    table's terms. *)
Definition pesos_do_documento (m : PyDict.dict string (PyDict.dict Z float))
  (doc : Z) : list float :=
  flat_map
    (fun entrada =>
       match PyDict.get Z.eq_dec (snd entrada) doc with
       | Some peso => [peso]
       | None => []
       end)
    m.

(** The values of [math.log10] at the arguments of the examples below,
    as CPython returns them. *)
Definition log10_exemplos (x : float) : float :=
  if x =? 1 then 0
  else if x =? 2 then 0x1.34413509f79ffp-2
  else if x =? 3 then 0x1.e8927964fd5fdp-2
  else if x =? 0x1.8p+0 then 0x1.68a288b60b7fcp-3
  else if x =? 0x1p-1 then (- 0x1.34413509f79ffp-2)
  else nan.

Definition quadrado_exemplos (x : float) : float := x * x.

(** The header record of the file; it is never evaluated. *)
Definition cabecalho : linha := LinhaInvalida.

(** The inverted list [{"cat": [1,1,2], "dog": [2]}]. *)
Definition linhas_exemplo : list linha :=
  [Linha "cat" [1; 1; 2]%Z; Linha "dog" [2]%Z].

(** An inverted list with a negative document id. *)
Definition linhas_negativas : list linha :=
  [Linha "cat" [-1; 2]%Z; Linha "dog" [-1]%Z].

(** An inverted list with a record that cannot be evaluated. *)
Definition linhas_corrompidas : list linha :=
  [Linha "cat" [1; 1; 2]%Z; LinhaInvalida; Linha "dog" [2]%Z].

End Indexador.

(* ================================================================= *)
(** ** Buscador.py *)

Module Buscador.

(** A ranked entry: [(posicao, doc_id, score)]. *)
Definition terno : Type := nat * Z * float.

Record estado : Type := mk_estado {
  modelo_tfidf : PyDict.dict string (PyDict.dict Z float);
  normas_documentos : PyDict.dict Z float;
  consultas : PyDict.dict Z string;
  resultados_finais : PyDict.dict Z (list terno)
}.

(** The object once the model and the queries are loaded;
    [resultados_finais] is still the empty dictionary of [__init__]. *)
Definition carregado (m : PyDict.dict string (PyDict.dict Z float))
  (n : PyDict.dict Z float) (c : PyDict.dict Z string) : estado :=
  {| modelo_tfidf := m; normas_documentos := n;
     consultas := c; resultados_finais := [] |}.

(** The characters [str.split()] separates on, among the ASCII ones:
    tab, line feed, vertical tab, form feed, carriage return, the four
    separators 28-31 and the space. *)
Definition isspace (c : ascii) : bool :=
  let n := nat_of_ascii c in
  ((9 <=? n) && (n <=? 13) || (28 <=? n) && (n <=? 31) || (n =? 32))%nat.

(** [texto.split()]: the maximal runs of non-space characters;
    [atual] is the run being read. *)
Fixpoint split_desde (texto : string) (atual : string) : list string :=
  match texto with
  | EmptyString =>
      match atual with
      | EmptyString => []
      | _ => [atual]
      end
  | String c resto =>
      if isspace c then
        match atual with
        | EmptyString => split_desde resto EmptyString
        | _ => atual :: split_desde resto EmptyString
        end
      else split_desde resto (atual ++ String c EmptyString)%string
  end.

Definition split (texto : string) : list string :=
  split_desde texto EmptyString.

(** [norma_consulta = math.sqrt(len(termos_consulta))] *)
Definition norma_da_consulta (termos_consulta : list string) : float :=
  math_sqrt (float_of_nat (List.length termos_consulta)).

(** [scores_docs[doc_id] += peso * 1] for every pair of one row of the
    model; [scores_docs] is a [defaultdict(float)]. *)
Definition somar_pesos (scores_docs pesos : PyDict.dict Z float)
  : PyDict.dict Z float :=
  fold_left
    (fun sc '(doc_id, peso) =>
       PyDict.set Z.eq_dec sc doc_id
         (PyDict.get_default Z.eq_dec sc doc_id 0 + peso * 1))
    pesos scores_docs.

(** One iteration of the loop over the terms of the query.  The model
    is a [defaultdict]: indexing it is an access that may insert, so
    the model after the access is threaded through. *)
Definition somar_termo
  (st : PyDict.dict string (PyDict.dict Z float) * PyDict.dict Z float)
  (termo : string)
  : PyDict.dict string (PyDict.dict Z float) * PyDict.dict Z float :=
  let (m, scores_docs) := st in
  if PyDict.contains string_dec m termo then
    let (pesos, m') := PyDict.defaultdict_getitem string_dec [] m termo in
    (m', somar_pesos scores_docs pesos)
  else (m, scores_docs).

(** The body of the loop that turns the dot products into cosines; a
    score whose document has no positive norm is left as it is. *)
Definition normalizar (normas : PyDict.dict Z float) (norma_consulta : float)
  (doc_id : Z) (score : float) : float :=
  let norma_doc := PyDict.get_default Z.eq_dec normas doc_id 1 in
  if 0 <? norma_doc then score / (norma_doc * norma_consulta) else score.

(** [sorted(itens, key=lambda item: item[1], reverse=True)]: the stable
    sort by decreasing score, as an insertion sort.  An item moves
    right only past items of strictly greater score, so items of equal
    score keep their order.  On scores that are numbers every stable
    sort returns this list; the order that the interpreter's sort
    gives to a list with a NaN score is not modelled. *)
Fixpoint inserir (x : Z * float) (l : list (Z * float)) : list (Z * float) :=
  match l with
  | [] => [x]
  | y :: l' => if snd x <? snd y then y :: inserir x l' else x :: y :: l'
  end.

Definition sorted_reverse (itens : list (Z * float)) : list (Z * float) :=
  fold_right inserir [] itens.

(** [for i, (doc_id, score) in enumerate(docs_ranqueados)] *)
Fixpoint formatar (i : nat) (docs_ranqueados : list (Z * float))
  : list terno :=
  match docs_ranqueados with
  | [] => []
  | (doc_id, score) :: resto =>
      ((i + 1)%nat, doc_id, score) :: formatar (S i) resto
  end.

(** The scores of a query before the sort. *)
Definition pontuar (normas : PyDict.dict Z float) (norma_consulta : float)
  (scores_docs : PyDict.dict Z float) : PyDict.dict Z float :=
  para_cada_chave Z.eq_dec (normalizar normas norma_consulta) scores_docs.

(** One iteration of the loop over [self.consultas.items()]. *)
Definition buscar (self : estado) (consulta : Z * string) : estado :=
  let (query_num, query_text) := consulta in
  let termos_consulta := split query_text in
  let norma_consulta := norma_da_consulta termos_consulta in
  if norma_consulta =? 0 then self
  else
    let (m, scores_docs) :=
      fold_left somar_termo termos_consulta (modelo_tfidf self, []) in
    let scores := pontuar (normas_documentos self) norma_consulta scores_docs in
    let docs_ranqueados := sorted_reverse scores in
    let resultado_formatado := formatar 0 docs_ranqueados in
    {| modelo_tfidf := m;
       normas_documentos := normas_documentos self;
       consultas := consultas self;
       resultados_finais :=
         PyDict.set Z.eq_dec (resultados_finais self) query_num
           resultado_formatado |}.

Definition _realizar_buscas (self : estado) : estado :=
  fold_left buscar (consultas self) self.

(** The scores of a query's terms against a model, and the ranking the
    loop body stores for that query. *)
Definition produto_escalar (m : PyDict.dict string (PyDict.dict Z float))
  (termos_consulta : list string) : PyDict.dict Z float :=
  snd (fold_left somar_termo termos_consulta (m, [])).

Definition ranking (m : PyDict.dict string (PyDict.dict Z float))
  (normas : PyDict.dict Z float) (query_text : string) : list terno :=
  let termos_consulta := split query_text in
  formatar 0
    (sorted_reverse
       (pontuar normas (norma_da_consulta termos_consulta)
          (produto_escalar m termos_consulta))).

(** The documents that share a term of the model with the query, each
    once. *)
Definition documentos_em_comum (m : PyDict.dict string (PyDict.dict Z float))
  (termos_consulta : list string) : list Z :=
  nodup Z.eq_dec
    (flat_map
       (fun termo =>
          match PyDict.get string_dec m termo with
          | Some pesos => PyDict.keys pesos
          | None => []
          end)
       termos_consulta).

(** The relation between an item and the next one in a list that
    descends by score. *)
Definition nao_cresce (a b : Z * float) : Prop :=
  (snd b <=? snd a) = true.

Definition posicao (t : terno) : nat := fst (fst t).
Definition documento (t : terno) : Z := snd (fst t).
Definition pontuacao (t : terno) : float := snd t.

(** A ranked list is descending when no entry scores less than the
    next one. *)
Definition descendente (resultado : list terno) : Prop :=
  Sorted (fun a b => (pontuacao b <=? pontuacao a) = true) resultado.

(** A model, its norms and queries for the examples. *)
Definition modelo_exemplo : PyDict.dict string (PyDict.dict Z float) :=
  [("cat"%string, [(1%Z, 0); (2%Z, 0)]);
   ("dog"%string, [(2%Z, 0x1.34413509f79ffp-2)])].

Definition normas_exemplo : PyDict.dict Z float :=
  [(1%Z, 0); (2%Z, 0x1.34413509f79ffp-2)].

Definition consultas_exemplo : PyDict.dict Z string :=
  [(1%Z, "dog"%string); (2%Z, "   "%string); (3%Z, "cat dog"%string);
   (4%Z, "cat"%string)].

(** A model with a document of norm 0 that has a non-zero weight, two
    documents with the same weight and norm, and a document without
    norm. *)
Definition modelo_avulso : PyDict.dict string (PyDict.dict Z float) :=
  [("A"%string, [(1%Z, 0.5); (2%Z, 0.5); (3%Z, 0.5); (4%Z, 0.25)])].

Definition normas_avulsas : PyDict.dict Z float :=
  [(1%Z, 0); (2%Z, 1); (3%Z, 1)].

Definition consultas_avulsas : PyDict.dict Z string :=
  [(7%Z, "A B"%string)].

Definition consultas_empate : PyDict.dict Z string :=
  [(8%Z, "A"%string)].

End Buscador.

(* ================================================================= *)
(** ** Text of the configuration files *)

Module Texto.

(** [s.strip()] on ASCII text: the whitespace at both ends is removed. *)
Fixpoint lstrip (s : string) : string :=
  match s with
  | EmptyString => EmptyString
  | String c resto => if Buscador.isspace c then lstrip resto else s
  end.

Fixpoint rstrip (s : string) : string :=
  match s with
  | EmptyString => EmptyString
  | String c resto =>
      match rstrip resto with
      | EmptyString =>
          if Buscador.isspace c then EmptyString else String c EmptyString
      | resto' => String c resto'
      end
  end.

Definition strip (s : string) : string := rstrip (lstrip s).

(** [s.upper()] on ASCII text. *)
Definition upper_char (c : ascii) : ascii :=
  let n := nat_of_ascii c in
  if ((97 <=? n) && (n <=? 122))%nat then ascii_of_nat (n - 32) else c.

Fixpoint upper (s : string) : string :=
  match s with
  | EmptyString => EmptyString
  | String c resto => String (upper_char c) (upper resto)
  end.

(** [chave, valor = linha.split('=', 1)]: the text before and after the
    first ['=']; without one the unpacking raises. *)
Fixpoint partir_igual (linha : string) : option (string * string) :=
  match linha with
  | EmptyString => None
  | String c resto =>
      if Ascii.eqb c "="%char then Some (EmptyString, resto)
      else
        match partir_igual resto with
        | Some (chave, valor) => Some (String c chave, valor)
        | None => None
        end
  end.



(** A text without any whitespace. *)
Fixpoint sem_espaco (texto : string) : bool :=
  match texto with
  | EmptyString => true
  | String c resto => negb (Buscador.isspace c) && sem_espaco resto
  end.

(** [' '.join(palavras)] *)
Fixpoint join_espaco (palavras : list string) : string :=
  match palavras with
  | [] => EmptyString
  | [p] => p
  | p :: resto => (p ++ String " "%char (join_espaco resto))%string
  end.

End Texto.

(* ================================================================= *)
(** ** Indexador.py: configuration and the whole run *)

Module IndexadorES.

Record config : Type := mk_config {
  arquivo_leitura : string;
  arquivo_escrita : string
}.

(** The two paths as [__init__] leaves them. *)
Definition config_inicial : config :=
  {| arquivo_leitura := EmptyString; arquivo_escrita := EmptyString |}.

(** The body of the loop over the lines of [INDEX.CFG]. *)
Definition ler_linha (self : config) (linha : string) : resultado config :=
  match Texto.strip linha with
  | EmptyString => Ok self
  | limpa =>
      match Texto.partir_igual limpa with
      | None => Erro ValueError
      | Some (chave, valor) =>
          if String.eqb (Texto.upper chave) "LEIA" then
            Ok {| arquivo_leitura := valor;
                  arquivo_escrita := arquivo_escrita self |}
          else if String.eqb (Texto.upper chave) "ESCREVA" then
            Ok {| arquivo_leitura := arquivo_leitura self;
                  arquivo_escrita := valor |}
          else Ok self
      end
  end.

Definition _ler_config (linhas : list string) : resultado config :=
  self <- para_cada ler_linha linhas config_inicial ;;
  if String.eqb (arquivo_leitura self) EmptyString
     || String.eqb (arquivo_escrita self) EmptyString
  then Erro ValueError
  else Ok self.

(** [executar]: the lines of the configuration file if it exists, and
    the inverted-list file that a path opens, give the path and the
    content of the model file written, if any. *)
Definition executar (log10 quadrado : float -> float)
  (configuracao : option (list string))
  (abrir : string -> option (list Indexador.linha))
  : option (string * Indexador.modelo_completo) :=
  match configuracao with
  | None => None
  | Some linhas =>
      match _ler_config linhas with
      | Erro _ => None
      | Ok self =>
          match abrir (arquivo_leitura self) with
          | None => None
          | Some arquivo =>
              match Indexador.executar log10 quadrado arquivo with
              | Some mc => Some (arquivo_escrita self, mc)
              | None => None
              end
          end
      end
  end.

End IndexadorES.

(* ================================================================= *)
(** ** Buscador.py: configuration, loading, writing and the whole run *)

Module BuscadorES.

Record config : Type := mk_config {
  arquivo_modelo : string;
  arquivo_consultas : string;
  arquivo_resultados : string
}.

Definition config_inicial : config :=
  {| arquivo_modelo := EmptyString; arquivo_consultas := EmptyString;
     arquivo_resultados := EmptyString |}.

(** The body of the loop over the lines of [BUSCA.CFG]. *)
Definition ler_linha (self : config) (linha : string) : resultado config :=
  match Texto.strip linha with
  | EmptyString => Ok self
  | limpa =>
      match Texto.partir_igual limpa with
      | None => Erro ValueError
      | Some (chave, valor) =>
          if String.eqb (Texto.upper chave) "MODELO" then
            Ok {| arquivo_modelo := valor;
                  arquivo_consultas := arquivo_consultas self;
                  arquivo_resultados := arquivo_resultados self |}
          else if String.eqb (Texto.upper chave) "CONSULTAS" then
            Ok {| arquivo_modelo := arquivo_modelo self;
                  arquivo_consultas := valor;
                  arquivo_resultados := arquivo_resultados self |}
          else if String.eqb (Texto.upper chave) "RESULTADOS" then
            Ok {| arquivo_modelo := arquivo_modelo self;
                  arquivo_consultas := arquivo_consultas self;
                  arquivo_resultados := valor |}
          else Ok self
      end
  end.

Definition _ler_config (linhas : list string) : resultado config :=
  self <- para_cada ler_linha linhas config_inicial ;;
  if String.eqb (arquivo_modelo self) EmptyString
     || String.eqb (arquivo_consultas self) EmptyString
     || String.eqb (arquivo_resultados self) EmptyString
  then Erro ValueError
  else Ok self.

(** The weights that the terms of a query, one after the other and
    with their repetitions, find for a document in the model. *)
Definition pesos_na_consulta (m : PyDict.dict string (PyDict.dict Z float))
  (termos_consulta : list string) (doc_id : Z) : list float :=
  flat_map
    (fun termo =>
       match PyDict.get string_dec m termo with
       | Some pesos =>
           match PyDict.get Z.eq_dec pesos doc_id with
           | Some peso => [peso]
           | None => []
           end
       | None => []
       end)
    termos_consulta.

(** A record of the query file as [csv.reader] and [int] deliver it: a
    query number with its text, or a record on which the unpacking or
    the conversion of the number raises. *)
Inductive linha_consulta : Type :=
| Consulta (query_num : Z) (query_text : string)
| ConsultaInvalida.

Definition carregar_consulta (consultas : PyDict.dict Z string)
  (l : linha_consulta) : resultado (PyDict.dict Z string) :=
  match l with
  | ConsultaInvalida => Erro ValueError
  | Consulta query_num query_text =>
      Ok (PyDict.set Z.eq_dec consultas query_num query_text)
  end.

(** [_carregar_consultas]: the dictionary that [self.consultas], empty
    at the start, becomes.  The first record is the header. *)
Definition _carregar_consultas (arquivo : list linha_consulta)
  : resultado (PyDict.dict Z string) :=
  match arquivo with
  | [] => Erro StopIteration
  | _ :: linhas => para_cada carregar_consulta linhas []
  end.

(** [sorted(self.resultados_finais.items())]: the numbers of a
    dictionary are distinct, so the comparison of two items is decided
    by their numbers. *)
Fixpoint inserir_linha (x : Z * list Buscador.terno)
  (l : list (Z * list Buscador.terno)) : list (Z * list Buscador.terno) :=
  match l with
  | [] => [x]
  | y :: l' =>
      if (fst y <? fst x)%Z then y :: inserir_linha x l' else x :: y :: l'
  end.

Definition sorted_itens (itens : list (Z * list Buscador.terno))
  : list (Z * list Buscador.terno) :=
  fold_right inserir_linha [] itens.

(** [_escrever_resultados]: the records written after the header, each
    a query number with its ranking, if a file is written at all. *)
Definition _escrever_resultados (self : Buscador.estado)
  : option (list (Z * list Buscador.terno)) :=
  match Buscador.resultados_finais self with
  | [] => None
  | _ :: _ => Some (sorted_itens (Buscador.resultados_finais self))
  end.

(** [executar]: the lines of the configuration file if it exists, the
    model that a path unpickles to and the query file that a path
    opens give the path and the records of the result file written, if
    any. *)
Definition executar (configuracao : option (list string))
  (abrir_modelo : string -> option Indexador.modelo_completo)
  (abrir_consultas : string -> option (list linha_consulta))
  : option (string * list (Z * list Buscador.terno)) :=
  match configuracao with
  | None => None
  | Some linhas =>
      match _ler_config linhas with
      | Erro _ => None
      | Ok self =>
          match abrir_modelo (arquivo_modelo self) with
          | None => None
          | Some mc =>
              match abrir_consultas (arquivo_consultas self) with
              | None => None
              | Some arquivo =>
                  match _carregar_consultas arquivo with
                  | Erro _ => None
                  | Ok consultas =>
                      match
                        _escrever_resultados
                          (Buscador._realizar_buscas
                             (Buscador.carregado
                                (Indexador.modelo_tfidf mc)
                                (Indexador.normas mc) consultas))
                      with
                      | Some registros =>
                          Some (arquivo_resultados self, registros)
                      | None => None
                      end
                  end
              end
          end
      end
  end.

(** A configuration, a model file and query files for the examples. *)
Definition configuracao_exemplo : list string :=
  ["MODELO=m.pkl"%string; "CONSULTAS=c.csv"%string;
   "RESULTADOS=r.csv"%string].

Definition abrir_modelo_exemplo (caminho : string)
  : option Indexador.modelo_completo :=
  if String.eqb caminho "m.pkl" then
    Some {| Indexador.modelo_tfidf := Buscador.modelo_exemplo;
            Indexador.normas := Buscador.normas_exemplo |}
  else None.

Definition consultas_do_arquivo : list linha_consulta :=
  [Consulta 3 "cat dog"; Consulta 2 "   "; Consulta 1 "dog"].

Definition abrir_consultas_exemplo (caminho : string)
  : option (list linha_consulta) :=
  if String.eqb caminho "c.csv" then
    Some (ConsultaInvalida :: consultas_do_arquivo)
  else None.

Definition abrir_consultas_corrompidas (caminho : string)
  : option (list linha_consulta) :=
  if String.eqb caminho "c.csv" then
    Some (ConsultaInvalida :: [Consulta 1 "dog"; ConsultaInvalida])
  else None.

End BuscadorES.

(* ================================================================= *)
(** ** GeradorListaInvertida.py: from the records to the file *)

Module GeradorListaInvertida.

(** A RECORD element as the XML parser delivers it.  [recordnum] is
    [None] without a RECORDNUM child and [Some None] when the text of
    the child cannot be read as an integer, which raises; [abstract]
    and [extract] are the texts of the children, [None] without the
    child or without a text. *)
Record registro : Type := mk_registro {
  recordnum : option (option Z);
  abstract : option string;
  extract : option string
}.

(** The text that is indexed: the ABSTRACT when it has one that is not
    empty, else the EXTRACT when it has one that is not empty. *)
Definition texto_do_registro (r : registro) : option string :=
  match abstract r with
  | Some (String c t) => Some (String c t)
  | _ =>
      match extract r with
      | Some (String c t) => Some (String c t)
      | _ => None
      end
  end.

(** [self.lista_invertida[palavra].append(record_num)] on a
    [defaultdict(list)]. *)
Definition anexar (li : PyDict.dict string (list Z)) (palavra : string)
  (record_num : Z) : PyDict.dict string (list Z) :=
  let (docs, li') := PyDict.defaultdict_getitem string_dec [] li palavra in
  PyDict.set string_dec li' palavra (docs ++ [record_num]).

Section Gerador.
(** [_normalizar_palavra]: the words of a text. *)
Variable _normalizar_palavra : string -> list string.

(** The loop over the RECORD elements of one file.  An exception
    leaves the loop, and the file, with what was appended so far. *)
Fixpoint processar_registros (registros : list registro)
  (li : PyDict.dict string (list Z)) : PyDict.dict string (list Z) :=
  match registros with
  | [] => li
  | r :: resto =>
      match recordnum r with
      | None => processar_registros resto li
      | Some None => li
      | Some (Some record_num) =>
          match texto_do_registro r with
          | None => processar_registros resto li
          | Some texto =>
              processar_registros resto
                (fold_left (fun li' palavra => anexar li' palavra record_num)
                   (_normalizar_palavra texto) li)
          end
      end
  end.

(** [_processar_arquivos]: each file is its RECORD elements, or [None]
    when it cannot be parsed; such a file is logged and skipped. *)
Definition _processar_arquivos (arquivos : list (option (list registro)))
  (li : PyDict.dict string (list Z)) : PyDict.dict string (list Z) :=
  fold_left
    (fun li' arquivo =>
       match arquivo with
       | None => li'
       | Some registros => processar_registros registros li'
       end)
    arquivos li.

(** The records that the loop of a file indexes, with their numbers:
    those that come before a record whose number cannot be read and
    that have a number and a text. *)
Fixpoint processados (registros : list registro) : list (Z * string) :=
  match registros with
  | [] => []
  | r :: resto =>
      match recordnum r with
      | None => processados resto
      | Some None => []
      | Some (Some record_num) =>
          match texto_do_registro r with
          | None => processados resto
          | Some texto => (record_num, texto) :: processados resto
          end
      end
  end.

(** What a word owes to the indexed records: the number of each
    record, as many times as the word occurs in its text. *)
Definition ocorrencias_da_palavra (palavra : string)
  (indexados : list (Z * string)) : list Z :=
  flat_map
    (fun nt =>
       repeat (fst nt)
         (count_occ string_dec (_normalizar_palavra (snd nt)) palavra))
    indexados.
End Gerador.






(** The indexed records of all the files, in the order of the files. *)
Definition processados_dos_arquivos
  (arquivos : list (option (list registro))) : list (Z * string) :=
  flat_map
    (fun arquivo =>
       match arquivo with
       | None => []
       | Some registros => processados registros
       end)
    arquivos.


End GeradorListaInvertida.

(* ================================================================= *)
(** ** Facts about dictionaries *)

Section DictFacts.
Variables K V : Type.
Variable dec : forall x y : K, {x = y} + {x <> y}.

Local Abbreviation get := (PyDict.get dec).
Local Abbreviation set := (PyDict.set dec).
Local Abbreviation keys := (@PyDict.keys K V).

Lemma get_set_eq (d : PyDict.dict K V) k v : get (set d k v) k = Some v.
Proof.
  induction d as [|[k' v'] d IH]; simpl.
  - destruct (dec k k); congruence.
  - destruct (dec k k') as [E|N]; simpl.
    + rewrite E. destruct (dec k' k'); congruence.
    + destruct (dec k k'); [contradiction | exact IH].
Qed.

Lemma get_set_neq (d : PyDict.dict K V) k k' v :
  k <> k' -> get (set d k v) k' = get d k'.
Proof.
  intros Hn. induction d as [|[k0 v0] d IH]; simpl.
  - destruct (dec k' k); congruence.
  - destruct (dec k k0) as [E|N]; simpl.
    + subst k0. destruct (dec k' k); congruence.
    + destruct (dec k' k0); [reflexivity | exact IH].
Qed.

Lemma get_None_keys (d : PyDict.dict K V) k :
  get d k = None <-> ~ In k (keys d).
Proof.
  induction d as [|[k' v'] d IH]; simpl.
  - tauto.
  - destruct (dec k k') as [E|N].
    + split; [discriminate | intros H; exfalso; apply H; left; congruence].
    + rewrite IH. split; [intros H [E|I]; congruence || tauto | tauto].
Qed.

Lemma get_Some_keys (d : PyDict.dict K V) k :
  In k (keys d) <-> exists v, get d k = Some v.
Proof.
  destruct (get d k) as [v|] eqn:E.
  - split; [eauto | intros _].
    destruct (in_dec dec k (keys d)) as [I|N]; [exact I|].
    apply get_None_keys in N. congruence.
  - split; [intros I | intros [v Hv]; discriminate].
    apply get_None_keys in E. contradiction.
Qed.

Lemma get_Some_In (d : PyDict.dict K V) k v : get d k = Some v -> In (k, v) d.
Proof.
  induction d as [|[k' v'] d IH]; simpl; [discriminate|].
  destruct (dec k k') as [E|N]; intros H.
  - left. congruence.
  - right. auto.
Qed.

Lemma In_get (d : PyDict.dict K V) k v :
  NoDup (keys d) -> In (k, v) d -> get d k = Some v.
Proof.
  induction d as [|[k' v'] d IH]; simpl; [tauto|].
  intros Hnd [E|I].
  - inversion E; subst. destruct (dec k k); congruence.
  - inversion Hnd; subst. destruct (dec k k') as [E|N]; [|auto].
    subst k'. exfalso. apply H1. apply (in_map fst) in I. exact I.
Qed.

Lemma get_app_fora (pre d : PyDict.dict K V) k :
  ~ In k (keys pre) -> get (pre ++ d) k = get d k.
Proof.
  induction pre as [|[k' v'] pre IH]; simpl; [reflexivity|].
  intros H. destruct (dec k k'); [exfalso; apply H; left; congruence|].
  apply IH. tauto.
Qed.

Lemma set_app_fora (pre d : PyDict.dict K V) k v :
  ~ In k (keys pre) -> set (pre ++ d) k v = pre ++ set d k v.
Proof.
  induction pre as [|[k' v'] pre IH]; simpl; [reflexivity|].
  intros H. destruct (dec k k'); [exfalso; apply H; left; congruence|].
  rewrite IH; tauto.
Qed.

Lemma set_novo (d : PyDict.dict K V) k v :
  ~ In k (keys d) -> set d k v = d ++ [(k, v)].
Proof.
  intros H. rewrite <- (app_nil_r d) at 1.
  rewrite set_app_fora by exact H. reflexivity.
Qed.

Lemma set_ultimo (d : PyDict.dict K V) k v v' :
  ~ In k (keys d) -> set (d ++ [(k, v)]) k v' = d ++ [(k, v')].
Proof.
  intros H. rewrite set_app_fora by exact H. simpl.
  destruct (dec k k); congruence.
Qed.

Lemma In_set (d : PyDict.dict K V) k v kv :
  In kv (set d k v) -> kv = (k, v) \/ In kv d.
Proof.
  induction d as [|[k0 v0] d IH]; simpl.
  - intuition.
  - destruct (dec k k0) as [E|N]; simpl.
    + subst. intuition.
    + intuition.
Qed.

Lemma keys_set_In (d : PyDict.dict K V) k v k' :
  In k' (keys (set d k v)) <-> k' = k \/ In k' (keys d).
Proof.
  induction d as [|[k0 v0] d IH]; simpl.
  - intuition congruence.
  - destruct (dec k k0) as [E|N]; simpl.
    + subst. intuition congruence.
    + rewrite IH. intuition congruence.
Qed.

Lemma keys_set_presente (d : PyDict.dict K V) k v :
  In k (keys d) -> keys (set d k v) = keys d.
Proof.
  induction d as [|[k0 v0] d IH]; simpl; [tauto|].
  intros H. destruct (dec k k0) as [E|N]; simpl; [reflexivity|].
  f_equal. apply IH. destruct H; congruence.
Qed.

Lemma NoDup_keys_set (d : PyDict.dict K V) k v :
  NoDup (keys d) -> NoDup (keys (set d k v)).
Proof.
  intros Hnd. destruct (in_dec dec k (keys d)) as [I|N].
  - rewrite keys_set_presente by exact I. exact Hnd.
  - rewrite set_novo by exact N. unfold PyDict.keys.
    rewrite map_app. simpl. apply NoDup_app.
    + exact Hnd.
    + constructor; [simpl; tauto | constructor].
    + intros a Ha [E|[]]. subst a. exact (N Ha).
Qed.

(** The loop over the keys rewrites every entry where it stands. *)
Lemma para_cada_chave_passo (g : K -> V -> V) (resto pre : PyDict.dict K V) :
  NoDup (keys (pre ++ resto)) ->
  fold_left
    (fun d' k =>
       match get d' k with
       | Some v => set d' k (g k v)
       | None => d'
       end)
    (keys resto) (pre ++ resto)
  = pre ++ map (fun kv => (fst kv, g (fst kv) (snd kv))) resto.
Proof.
  revert pre. induction resto as [|[k v] resto IH]; intros pre Hnd; simpl.
  - reflexivity.
  - assert (Hk : ~ In k (keys pre)).
    { unfold PyDict.keys in *. rewrite map_app in Hnd. simpl in Hnd.
      apply NoDup_remove_2 in Hnd. intros I. apply Hnd.
      apply in_or_app. now left. }
    rewrite get_app_fora by exact Hk. simpl.
    destruct (dec k k) as [_|N]; [|congruence].
    rewrite set_app_fora by exact Hk. simpl.
    destruct (dec k k) as [_|N]; [|congruence].
    change (pre ++ (k, g k v) :: resto)
      with (pre ++ [(k, g k v)] ++ resto).
    rewrite app_assoc. rewrite IH.
    + rewrite <- app_assoc. reflexivity.
    + rewrite <- app_assoc. simpl. unfold PyDict.keys in *.
      rewrite map_app in *. simpl in *. exact Hnd.
Qed.

Lemma para_cada_chave_map (g : K -> V -> V) (d : PyDict.dict K V) :
  NoDup (keys d) ->
  para_cada_chave dec g d = map (fun kv => (fst kv, g (fst kv) (snd kv))) d.
Proof.
  intros Hnd. unfold para_cada_chave.
  apply (para_cada_chave_passo g d []). exact Hnd.
Qed.

Lemma get_map_valores (g : K -> V -> V) (d : PyDict.dict K V) k :
  get (map (fun kv => (fst kv, g (fst kv) (snd kv))) d) k
  = option_map (g k) (get d k).
Proof.
  induction d as [|[k' v'] d IH]; simpl; [reflexivity|].
  destruct (dec k k') as [E|N]; [subst; reflexivity | exact IH].
Qed.

Lemma keys_map_valores (g : K -> V -> V) (d : PyDict.dict K V) :
  keys (map (fun kv => (fst kv, g (fst kv) (snd kv))) d) = keys d.
Proof.
  unfold PyDict.keys. rewrite map_map. reflexivity.
Qed.
End DictFacts.

(* ================================================================= *)
(** ** The order of binary64 numbers *)

Lemma SFcompare_antisym (a b : SpecFloat.spec_float) :
  SFcompare b a = option_map CompOpp (SFcompare a b).
Proof.
  destruct a as [sa|sa| |sa ma ea], b as [sb|sb| |sb mb eb]; simpl;
    try reflexivity;
    try (destruct sa; reflexivity); try (destruct sb; reflexivity);
    try (destruct sa, sb; reflexivity).
  destruct sa, sb; simpl; try reflexivity;
    rewrite (Z.compare_antisym ea eb);
    destruct (Z.compare ea eb) eqn:E; simpl; try reflexivity;
    fold (Pos.compare mb ma); fold (Pos.compare ma mb);
    rewrite (Pos.compare_antisym ma mb);
    destruct (Pos.compare ma mb); reflexivity.
Qed.

Lemma SFcompare_definido (a b : SpecFloat.spec_float) :
  SFeqb a a = true -> SFeqb b b = true -> exists c, SFcompare a b = Some c.
Proof.
  unfold SFeqb.
  destruct a as [sa|sa| |sa ma ea], b as [sb|sb| |sb mb eb]; simpl;
    intros Ha Hb; try discriminate; eauto.
Qed.

(** [x < y] gives [x <= y]. *)
Lemma ltb_leb (x y : float) : (x <? y) = true -> (x <=? y) = true.
Proof.
  rewrite ltb_spec, leb_spec. unfold SFltb, SFleb.
  destruct (SFcompare (Prim2SF x) (Prim2SF y)) as [[| |]|]; congruence.
Qed.

(** Two numbers that are not NaN are comparable. *)
Lemma nao_ltb_leb (x y : float) :
  nao_e_nan x -> nao_e_nan y -> (x <? y) = false -> (y <=? x) = true.
Proof.
  unfold nao_e_nan. rewrite !eqb_spec, ltb_spec, leb_spec.
  intros Hx Hy. destruct (SFcompare_definido _ _ Hx Hy) as [c Hc].
  unfold SFltb, SFleb. rewrite (SFcompare_antisym (Prim2SF x) (Prim2SF y)).
  rewrite Hc. destruct c; simpl; congruence.
Qed.


(* ================================================================= *)
(** ** The Indexador *)

Module IndexadorProps.
Import Indexador.

(** *** Loading the inverted list *)

Lemma set_update_In (lista conjunto : list Z) (d : Z) :
  In d (set_update conjunto lista) <-> In d conjunto \/ In d lista.
Proof.
  unfold set_update. revert conjunto.
  induction lista as [|x lista IH]; intros conjunto; simpl.
  - tauto.
  - rewrite IH. destruct (in_dec Z.eq_dec x conjunto) as [I|N].
    + intuition (subst; auto).
    + rewrite in_app_iff. simpl. intuition.
Qed.

Lemma set_update_NoDup (lista conjunto : list Z) :
  NoDup conjunto -> NoDup (set_update conjunto lista).
Proof.
  unfold set_update. revert conjunto.
  induction lista as [|x lista IH]; intros conjunto Hnd; simpl.
  - exact Hnd.
  - apply IH. destruct (in_dec Z.eq_dec x conjunto) as [I|N]; [exact Hnd|].
    apply NoDup_app; [exact Hnd | constructor; [simpl; tauto | constructor] |].
    intros a Ha [E|[]]. subst a. exact (N Ha).
Qed.

Lemma set_update_len (lista : list Z) :
  List.length (set_update [] lista) = len_set lista.
Proof.
  unfold len_set. apply Permutation_length. apply NoDup_Permutation.
  - apply set_update_NoDup. constructor.
  - apply NoDup_nodup.
  - intros d. rewrite set_update_In, nodup_In. simpl. tauto.
Qed.

Lemma set_update_app (l1 l2 conjunto : list Z) :
  set_update (set_update conjunto l1) l2 = set_update conjunto (l1 ++ l2).
Proof. unfold set_update. rewrite fold_left_app. reflexivity. Qed.

Lemma len_set_positivo (lista : list Z) (d : Z) :
  In d lista -> (1 <= len_set lista)%nat.
Proof.
  intros I. unfold len_set. apply (nodup_In Z.eq_dec) in I.
  destruct (nodup Z.eq_dec lista); [contradiction | simpl; lia].
Qed.

Lemma carregar_linhas_ok (linhas : list linha) (self : estado) :
  forallb linha_valida linhas = true ->
  exists s1, para_cada carregar_linha linhas self = Ok s1
             /\ foi_carregado linhas self s1.
Proof.
  revert self. induction linhas as [|l linhas IH]; intros self Hv; simpl.
  - exists self. split; [reflexivity|].
    constructor; simpl; auto. intros t [H|[ld []]]. exact H.
  - simpl in Hv. apply andb_prop in Hv. destruct Hv as [Hl Hv].
    destruct l as [palavra lista_docs|]; [|discriminate]. simpl.
    destruct (IH {| lista_invertida :=
                      PyDict.set string_dec (lista_invertida self)
                        palavra lista_docs;
                    documentos := set_update (documentos self) lista_docs;
                    modelo := modelo self;
                    normas_documentos := normas_documentos self |} Hv)
      as [s1 [Hs1 [Hd Hm Hn Hk Ho Hp]]].
    exists s1. split; [exact Hs1|]. simpl in *.
    constructor; simpl.
    + rewrite Hd. apply set_update_app.
    + exact Hm.
    + exact Hn.
    + intros Hnd. apply Hk. apply NoDup_keys_set. exact Hnd.
    + intros t ld I. destruct (Ho t ld I) as [I'|I']; [|auto].
      apply In_set in I'. destruct I' as [E|I']; [|auto].
      inversion E; subst. auto.
    + intros t H. apply Hp. destruct H as [H|[ld [E|I]]].
      * left. apply keys_set_In. now right.
      * inversion E; subst. left. apply keys_set_In. now left.
      * right. exists ld. exact I.
Qed.

Lemma linha_valida_In (linhas : list linha) t lista_docs :
  forallb linha_valida linhas = true ->
  In (Linha t lista_docs) linhas ->
  lista_docs <> [] /\ incl lista_docs (ids_das_linhas linhas).
Proof.
  intros Hv I. rewrite forallb_forall in Hv. split.
  - specialize (Hv _ I). simpl in Hv. destruct lista_docs; congruence.
  - intros d Hd. unfold ids_das_linhas. apply in_flat_map.
    exists (Linha t lista_docs). auto.
Qed.

(** *** Counting the occurrences *)

Lemma contar_desde (lista : list Z) (f : PyDict.dict Z nat) :
  let f' :=
    fold_left
      (fun f doc =>
         PyDict.set Z.eq_dec f doc
           (PyDict.get_default Z.eq_dec f doc 0 + 1)%nat)
      lista f in
  (NoDup (PyDict.keys f) -> NoDup (PyDict.keys f'))
  /\ (forall d, In d (PyDict.keys f') <-> In d (PyDict.keys f) \/ In d lista)
  /\ (forall d, PyDict.get_default Z.eq_dec f' d 0%nat
                = (PyDict.get_default Z.eq_dec f d 0
                   + count_occ Z.eq_dec lista d)%nat).
Proof.
  revert f. induction lista as [|x lista IH]; intros f; simpl.
  - repeat split; auto; try tauto.
  - specialize (IH (PyDict.set Z.eq_dec f x
                      (PyDict.get_default Z.eq_dec f x 0 + 1)%nat)).
    simpl in IH. destruct IH as [Hnd [Hk Hc]].
    split; [|split].
    + intros H. apply Hnd. apply NoDup_keys_set. exact H.
    + intros d. rewrite Hk, keys_set_In. intuition.
    + intros d. rewrite Hc. unfold PyDict.get_default at 1.
      destruct (Z.eq_dec x d) as [E|N].
      * subst d. rewrite get_set_eq. lia.
      * rewrite get_set_neq by exact N.
        unfold PyDict.get_default. lia.
Qed.

Lemma contar_NoDup (lista : list Z) : NoDup (PyDict.keys (contar lista)).
Proof. apply (contar_desde lista []). constructor. Qed.

Lemma contar_keys (lista : list Z) (d : Z) :
  In d (PyDict.keys (contar lista)) <-> In d lista.
Proof.
  destruct (contar_desde lista []) as [_ [Hk _]]. unfold contar.
  rewrite Hk. simpl. tauto.
Qed.

Lemma contar_get (lista : list Z) (d : Z) :
  In d lista ->
  PyDict.get Z.eq_dec (contar lista) d = Some (count_occ Z.eq_dec lista d).
Proof.
  intros I. destruct (contar_desde lista []) as [_ [_ Hc]].
  specialize (Hc d). simpl in Hc. fold (contar lista) in Hc.
  apply contar_keys in I. apply get_Some_keys with (dec := Z.eq_dec) in I.
  destruct I as [v Hv]. unfold PyDict.get_default in Hc.
  rewrite Hv in Hc. simpl in Hc. congruence.
Qed.

(** *** The weight table in closed form *)

Section Tabela.
Variable log10 : float -> float.
Variable N : nat.

Lemma modelo_set_presente (m : PyDict.dict string (PyDict.dict Z float))
  (t : string) (p : PyDict.dict Z float) (doc : Z) (x : float) :
  ~ In t (PyDict.keys m) -> ~ In doc (PyDict.keys p) ->
  modelo_set (m ++ [(t, p)]) t doc x = m ++ [(t, p ++ [(doc, x)])].
Proof.
  intros Ht Hd. unfold modelo_set, PyDict.defaultdict_getitem.
  rewrite get_app_fora by exact Ht. simpl.
  destruct (string_dec t t) as [_|C]; [|congruence].
  rewrite set_ultimo by exact Ht. rewrite set_novo by exact Hd. reflexivity.
Qed.

Lemma modelo_set_ausente (m : PyDict.dict string (PyDict.dict Z float))
  (t : string) (doc : Z) (x : float) :
  ~ In t (PyDict.keys m) ->
  modelo_set m t doc x = m ++ [(t, [(doc, x)])].
Proof.
  intros Ht. unfold modelo_set, PyDict.defaultdict_getitem.
  assert (E := proj2 (get_None_keys string_dec m t) Ht).
  unfold PyDict.dict in *. rewrite E.
  rewrite (set_novo string_dec m t [] Ht). rewrite set_ultimo by exact Ht. reflexivity.
Qed.

Lemma pesos_da_palavra_desde (w : nat -> float) (t : string)
  (m : PyDict.dict string (PyDict.dict Z float))
  (itens : PyDict.dict Z nat) (p : PyDict.dict Z float) :
  ~ In t (PyDict.keys m) ->
  NoDup (PyDict.keys p ++ PyDict.keys itens) ->
  fold_left (fun m' '(doc, freq) => modelo_set m' t doc (w freq))
    itens (m ++ [(t, p)])
  = m ++ [(t, p ++ map (fun df => (fst df, w (snd df))) itens)].
Proof.
  intros Ht. revert p. induction itens as [|[doc freq] itens IH];
    intros p Hnd; simpl.
  - rewrite app_nil_r. reflexivity.
  - simpl in Hnd. rewrite modelo_set_presente.
    + rewrite IH.
      * rewrite <- app_assoc. reflexivity.
      * unfold PyDict.keys in *. rewrite map_app. simpl.
        rewrite <- app_assoc. exact Hnd.
    + exact Ht.
    + apply NoDup_remove_2 in Hnd. intros I. apply Hnd.
      apply in_or_app. now left.
Qed.

Lemma pesos_palavra_novo (m : PyDict.dict string (PyDict.dict Z float))
  (t : string) (lista_docs : list Z) :
  ~ In t (PyDict.keys m) -> lista_docs <> [] ->
  pesos_palavra log10 N m (t, lista_docs)
  = Ok (m ++ [linha_do_modelo log10 N (t, lista_docs)]).
Proof.
  intros Ht Hl. unfold pesos_palavra.
  destruct lista_docs as [|d0 resto]; [congruence|].
  assert (H1 : (1 <= len_set (d0 :: resto))%nat)
    by (apply len_set_positivo with (d := d0); now left).
  destruct (Nat.eqb_spec (len_set (d0 :: resto)) 0) as [E|_]; [lia|].
  f_equal. unfold linha_do_modelo. simpl fst. simpl snd.
  pose proof (contar_NoDup (d0 :: resto)) as Hnd.
  assert (Hne : In d0 (PyDict.keys (contar (d0 :: resto))))
    by (apply contar_keys; now left).
  destruct (contar (d0 :: resto)) as [|[doc freq] itens]; [contradiction|].
  simpl. rewrite modelo_set_ausente by exact Ht.
  rewrite pesos_da_palavra_desde
    with (w := peso_tfidf log10 N (len_set (d0 :: resto))).
  - reflexivity.
  - exact Ht.
  - exact Hnd.
Qed.

Lemma modelo_fechado (itens : PyDict.dict string (list Z))
  (m : PyDict.dict string (PyDict.dict Z float)) :
  NoDup (PyDict.keys m ++ PyDict.keys itens) ->
  (forall t lista_docs, In (t, lista_docs) itens -> lista_docs <> []) ->
  para_cada (pesos_palavra log10 N) itens m
  = Ok (m ++ map (linha_do_modelo log10 N) itens).
Proof.
  revert m. induction itens as [|[t lista_docs] itens IH];
    intros m Hnd Hne; cbn [para_cada map].
  - rewrite app_nil_r. reflexivity.
  - rewrite pesos_palavra_novo.
    + cbn [bind]. rewrite IH.
      * rewrite <- app_assoc. reflexivity.
      * unfold PyDict.keys in *. rewrite map_app. simpl.
        rewrite <- app_assoc. exact Hnd.
      * intros t' l' I. apply (Hne t' l'). now right.
    + simpl in Hnd. apply NoDup_remove_2 in Hnd. intros I. apply Hnd.
      apply in_or_app. now left.
    + apply (Hne t lista_docs). now left.
Qed.

End Tabela.

(** *** The norms *)

Section Normas.
Variable quadrado : float -> float.

(** The weights stored under [doc] in one row, read pair by pair. *)
Local Abbreviation ocorrencias doc pesos :=
  (map snd
     (filter (fun kv : Z * float => if Z.eq_dec (fst kv) doc then true else false)
        pesos)).

Local Abbreviation somar := (fun soma peso : float => soma + quadrado peso).

Lemma somar_quadrados_desde (pesos normas : PyDict.dict Z float) :
  let normas' := somar_quadrados quadrado normas pesos in
  (NoDup (PyDict.keys normas) -> NoDup (PyDict.keys normas'))
  /\ (forall d, In d (PyDict.keys normas')
                <-> In d (PyDict.keys normas) \/ In d (PyDict.keys pesos))
  /\ (forall d, PyDict.get_default Z.eq_dec normas' d 0
                = fold_left somar (ocorrencias d pesos)
                    (PyDict.get_default Z.eq_dec normas d 0)).
Proof.
  unfold somar_quadrados. revert normas.
  induction pesos as [|[doc peso] pesos IH]; intros normas; simpl.
  - repeat split; auto; tauto.
  - specialize (IH (PyDict.set Z.eq_dec normas doc
                      (PyDict.get_default Z.eq_dec normas doc 0
                       + quadrado peso))).
    simpl in IH. destruct IH as [Hnd [Hk Hs]]. split; [|split].
    + intros H. apply Hnd. apply NoDup_keys_set. exact H.
    + intros d. rewrite Hk, keys_set_In. intuition.
    + intros d. rewrite Hs. destruct (Z.eq_dec doc d) as [E|Ne]; simpl.
      * subst d. unfold PyDict.get_default at 1.
        rewrite get_set_eq. reflexivity.
      * unfold PyDict.get_default at 1.
        rewrite get_set_neq by exact Ne. reflexivity.
Qed.

Lemma acumular_normas_desde (m : PyDict.dict string (PyDict.dict Z float))
  (normas : PyDict.dict Z float) :
  let normas' := acumular_normas quadrado m normas in
  (NoDup (PyDict.keys normas) -> NoDup (PyDict.keys normas'))
  /\ (forall d, In d (PyDict.keys normas')
                <-> In d (PyDict.keys normas)
                    \/ exists e, In e m /\ In d (PyDict.keys (snd e)))
  /\ (forall d, PyDict.get_default Z.eq_dec normas' d 0
                = fold_left somar
                    (flat_map (fun e => ocorrencias d (snd e)) m)
                    (PyDict.get_default Z.eq_dec normas d 0)).
Proof.
  unfold acumular_normas. revert normas.
  induction m as [|[t pesos] m IH]; intros normas; simpl.
  - repeat split; auto; try tauto. intros [H|[e [[] _]]]. exact H.
  - specialize (IH (somar_quadrados quadrado normas pesos)).
    simpl in IH. destruct IH as [Hnd [Hk Hs]].
    destruct (somar_quadrados_desde pesos normas) as [Hnd1 [Hk1 Hs1]].
    simpl in Hnd1, Hk1, Hs1. split; [|split].
    + auto.
    + intros d. rewrite Hk, Hk1. split.
      * intros [[H|H]|[e [He Hd]]].
        -- now left.
        -- right. exists (t, pesos). auto.
        -- right. exists e. auto.
      * intros [H|[e [[He|He] Hd]]].
        -- left. now left.
        -- subst e. left. now right.
        -- right. exists e. auto.
    + intros d. rewrite Hs, Hs1, fold_left_app. reflexivity.
Qed.

Lemma ocorrencias_get (pesos : PyDict.dict Z float) (d : Z) :
  NoDup (PyDict.keys pesos) ->
  ocorrencias d pesos
  = match PyDict.get Z.eq_dec pesos d with
    | Some peso => [peso]
    | None => []
    end.
Proof.
  induction pesos as [|[doc peso] pesos IH]; simpl; intros Hnd.
  - reflexivity.
  - inversion Hnd as [|? ? Hn Hnd']; subst.
    destruct (Z.eq_dec doc d) as [E|Ne]; destruct (Z.eq_dec d doc) as [E'|Ne'];
      try congruence; simpl.
    + subst d. f_equal. rewrite IH by exact Hnd'.
      rewrite (proj2 (get_None_keys Z.eq_dec pesos doc) Hn). reflexivity.
    + apply IH. exact Hnd'.
Qed.

Lemma pesos_do_documento_ocorrencias
  (m : PyDict.dict string (PyDict.dict Z float)) (d : Z) :
  (forall e, In e m -> NoDup (PyDict.keys (snd e))) ->
  flat_map (fun e => ocorrencias d (snd e)) m = pesos_do_documento m d.
Proof.
  unfold pesos_do_documento.
  induction m as [|e m IH]; simpl; intros H; [reflexivity|].
  rewrite ocorrencias_get by (apply H; now left).
  rewrite IH by (intros e' I; apply H; now right). reflexivity.
Qed.

(** The norm table after the second pass, for a table whose rows have
    no repeated key. *)
Lemma normas_fechadas (m : PyDict.dict string (PyDict.dict Z float)) (d : Z) :
  (forall e, In e m -> NoDup (PyDict.keys (snd e))) ->
  (exists t pesos peso,
      PyDict.get string_dec m t = Some pesos
      /\ PyDict.get Z.eq_dec pesos d = Some peso) ->
  let normas :=
    para_cada_chave Z.eq_dec (fun _ s => math_sqrt s)
      (acumular_normas quadrado m []) in
  count_occ Z.eq_dec (PyDict.keys normas) d = 1%nat
  /\ PyDict.get Z.eq_dec normas d
     = Some (math_sqrt (fold_left somar (pesos_do_documento m d) 0)).
Proof.
  intros Hrows [t [pesos [peso [Ht Hd]]]] normas.
  destruct (acumular_normas_desde m []) as [Hnd [Hk Hs]].
  simpl in Hnd, Hk, Hs. specialize (Hnd (NoDup_nil _)).
  assert (Hin : In d (PyDict.keys (acumular_normas quadrado m []))).
  { apply Hk. right. exists (t, pesos). split.
    - apply get_Some_In with (dec := string_dec). exact Ht.
    - simpl. apply get_Some_keys with (dec := Z.eq_dec). eauto. }
  subst normas. rewrite para_cada_chave_map by exact Hnd.
  pose proof (keys_map_valores (fun (_ : Z) s => math_sqrt s)
                (acumular_normas quadrado m [])) as Hkm.
  pose proof (get_map_valores Z.eq_dec (fun _ s => math_sqrt s)
                (acumular_normas quadrado m []) d) as Hgm.
  cbv beta in *. rewrite Hkm, Hgm. split.
  - apply NoDup_count_occ' with (decA := Z.eq_dec); assumption.
  - apply get_Some_keys with (dec := Z.eq_dec) in Hin.
    destruct Hin as [v Hv]. rewrite Hv. simpl. f_equal. f_equal.
    specialize (Hs d). unfold PyDict.get_default in Hs. rewrite Hv in Hs.
    simpl in Hs. rewrite Hs.
    rewrite pesos_do_documento_ocorrencias by exact Hrows. reflexivity.
Qed.
End Normas.

(** *** The whole pipeline on a well-formed inverted list *)

Section Pipeline.
Variable log10 : float -> float.
Variable quadrado : float -> float.

Lemma get_map_pesos (w : nat -> float) (c : PyDict.dict Z nat) (d : Z) :
  PyDict.get Z.eq_dec (map (fun df => (fst df, w (snd df))) c) d
  = option_map w (PyDict.get Z.eq_dec c d).
Proof.
  induction c as [|[d' f] c IH]; simpl; [reflexivity|].
  destruct (Z.eq_dec d d'); [reflexivity | exact IH].
Qed.

Lemma get_linhas_do_modelo (N : nat) (itens : PyDict.dict string (list Z))
  (t : string) :
  PyDict.get string_dec (map (linha_do_modelo log10 N) itens) t
  = option_map (fun lista_docs => snd (linha_do_modelo log10 N (t, lista_docs)))
      (PyDict.get string_dec itens t).
Proof.
  induction itens as [|[t' l'] itens IH]; simpl; [reflexivity|].
  destruct (string_dec t t') as [E|Ne]; [subst; reflexivity | exact IH].
Qed.

Lemma linhas_do_modelo_NoDup (N : nat) (itens : PyDict.dict string (list Z)) e :
  In e (map (linha_do_modelo log10 N) itens) -> NoDup (PyDict.keys (snd e)).
Proof.
  intros I. apply in_map_iff in I. destruct I as [[t ld] [E _]]. subst e.
  unfold linha_do_modelo, PyDict.keys. simpl. rewrite map_map. simpl.
  apply contar_NoDup.
Qed.

Lemma pipeline (cab : linha) (linhas : list linha) :
  forallb linha_valida linhas = true ->
  exists s1 s2,
    _carregar_lista_invertida novo (cab :: linhas) = Ok s1
    /\ _calcular_pesos log10 quadrado s1 = Ok s2
    /\ NoDup (PyDict.keys (lista_invertida s1))
    /\ (forall t lista_docs,
          In (t, lista_docs) (lista_invertida s1) ->
          lista_docs <> [] /\ incl lista_docs (ids_das_linhas linhas))
    /\ (forall t lista_docs,
          In (Linha t lista_docs) linhas ->
          In t (PyDict.keys (lista_invertida s1)))
    /\ modelo s2
       = map (linha_do_modelo log10 (len_set (ids_das_linhas linhas)))
           (lista_invertida s1)
    /\ normas_documentos s2
       = para_cada_chave Z.eq_dec (fun _ s => math_sqrt s)
           (acumular_normas quadrado (modelo s2) []).
Proof.
  intros Hv. destruct (carregar_linhas_ok linhas novo Hv)
    as [s1 [Hs1 [Hd Hm Hn Hk Ho Hp]]].
  simpl in Hd, Hm, Hn, Hk, Ho, Hp.
  assert (Hnd : NoDup (PyDict.keys (lista_invertida s1)))
    by (apply Hk; constructor).
  assert (Hor : forall t lista_docs,
             In (t, lista_docs) (lista_invertida s1) ->
             lista_docs <> [] /\ incl lista_docs (ids_das_linhas linhas)).
  { intros t ld I. destruct (Ho t ld I) as [[]|I'].
    apply (linha_valida_In linhas t ld Hv I'). }
  assert (Hlen : List.length (documentos s1) = len_set (ids_das_linhas linhas))
    by (rewrite Hd; apply set_update_len).
  assert (Hcalc : exists s2,
             _calcular_pesos log10 quadrado s1 = Ok s2
             /\ modelo s2
                = map (linha_do_modelo log10 (len_set (ids_das_linhas linhas)))
                    (lista_invertida s1)
             /\ normas_documentos s2
                = para_cada_chave Z.eq_dec (fun _ s => math_sqrt s)
                    (acumular_normas quadrado (modelo s2) [])).
  { unfold _calcular_pesos. rewrite Hlen.
    destruct (Nat.eqb_spec (len_set (ids_das_linhas linhas)) 0) as [E0|N0].
    - assert (Hvazio : lista_invertida s1 = []).
      { destruct (lista_invertida s1) as [|[t ld] li] eqn:Eli; [reflexivity|].
        destruct (Hor t ld (or_introl eq_refl)) as [Hne Hincl].
        destruct ld as [|d ld]; [congruence|].
        pose proof (len_set_positivo (ids_das_linhas linhas) d
                      (Hincl d (or_introl eq_refl))). lia. }
      exists s1. rewrite Hvazio, Hm, Hn. repeat split.
    - rewrite Hm.
      rewrite (modelo_fechado log10 (len_set (ids_das_linhas linhas))
                 (lista_invertida s1) []).
      + simpl. eexists. split; [reflexivity|]. simpl. rewrite Hn.
        split; reflexivity.
      + simpl. exact Hnd.
      + intros t ld I. apply (Hor t ld I). }
  destruct Hcalc as [s2 [Hs2 [Hmod Hnor]]].
  exists s1, s2. repeat split; auto.
  - apply (Hor t lista_docs H).
  - apply (Hor t lista_docs H).
  - intros t ld I. apply (Hp t). right. eauto.
Qed.
End Pipeline.

(** *** The claims about the Indexador *)

(** C1: on an inverted list whose records are terms with non-empty
    occurrence sequences, the Indexador loads the list and computes the
    weights without error, and for every term [t] of the list and every
    document id [d] of [t]'s sequence the weight table stores
    [(1 + log10 freq) * log10 (N / doc_freq)], where [N] counts the
    distinct ids of the whole list, [doc_freq] the distinct ids of
    [t]'s sequence and [freq >= 1] the occurrences of [d] in it. *)
Theorem C1_peso_tfidf (log10 quadrado : float -> float)
  (cab : linha) (linhas : list linha) :
  forallb linha_valida linhas = true ->
  exists s1 s2,
    _carregar_lista_invertida novo (cab :: linhas) = Ok s1
    /\ _calcular_pesos log10 quadrado s1 = Ok s2
    /\ forall t lista_docs d,
         PyDict.get string_dec (lista_invertida s1) t = Some lista_docs ->
         In d lista_docs ->
         let N := len_set (ids_das_linhas linhas) in
         let doc_freq := len_set lista_docs in
         let freq := count_occ Z.eq_dec lista_docs d in
         (1 <= freq)%nat
         /\ exists pesos,
              PyDict.get string_dec (modelo s2) t = Some pesos
              /\ PyDict.get Z.eq_dec pesos d
                 = Some ((1 + log10 (float_of_nat freq))
                         * log10 (float_of_nat N / float_of_nat doc_freq)).
Proof.
  intros Hv.
  destruct (pipeline log10 quadrado cab linhas Hv)
    as [s1 [s2 [Hs1 [Hs2 [_ [_ [_ [Hmod _]]]]]]]].
  exists s1, s2. split; [exact Hs1|]. split; [exact Hs2|].
  intros t lista_docs d Ht Hd N doc_freq freq. split.
  - apply (count_occ_In Z.eq_dec) in Hd. unfold freq. lia.
  - rewrite Hmod, get_linhas_do_modelo, Ht. simpl.
    eexists. split; [reflexivity|].
    rewrite get_map_pesos, contar_get by exact Hd. reflexivity.
Qed.

Lemma C1_peso_tfidf_witness :
  forallb linha_valida linhas_exemplo = true
  /\ exists s1 s2,
       _carregar_lista_invertida novo (cabecalho :: linhas_exemplo) = Ok s1
       /\ _calcular_pesos log10_exemplos quadrado_exemplos s1 = Ok s2
       /\ forall t lista_docs d,
            PyDict.get string_dec (lista_invertida s1) t = Some lista_docs ->
            In d lista_docs ->
            let N := len_set (ids_das_linhas linhas_exemplo) in
            let doc_freq := len_set lista_docs in
            let freq := count_occ Z.eq_dec lista_docs d in
            (1 <= freq)%nat
            /\ exists pesos,
                 PyDict.get string_dec (modelo s2) t = Some pesos
                 /\ PyDict.get Z.eq_dec pesos d
                    = Some ((1 + log10_exemplos (float_of_nat freq))
                            * log10_exemplos
                                (float_of_nat N / float_of_nat doc_freq)).
Proof.
  split; [reflexivity|].
  apply (@C1_peso_tfidf log10_exemplos quadrado_exemplos
           cabecalho linhas_exemplo).
  reflexivity.
Defined.

(** C2: on such an inverted list, every document id [d] that some row
    of the weight table references has exactly one entry in the norm
    table, and that entry is the square root of the sum, started at 0
    and taken in the order of the table's terms, of the squares of all
    the weights stored for [d] in the finished table. *)
Theorem C2_norma_do_documento (log10 quadrado : float -> float)
  (cab : linha) (linhas : list linha) :
  forallb linha_valida linhas = true ->
  exists s1 s2,
    _carregar_lista_invertida novo (cab :: linhas) = Ok s1
    /\ _calcular_pesos log10 quadrado s1 = Ok s2
    /\ forall d,
         (exists t pesos peso,
             PyDict.get string_dec (modelo s2) t = Some pesos
             /\ PyDict.get Z.eq_dec pesos d = Some peso) ->
         count_occ Z.eq_dec (PyDict.keys (normas_documentos s2)) d = 1%nat
         /\ PyDict.get Z.eq_dec (normas_documentos s2) d
            = Some (math_sqrt
                      (fold_left (fun soma peso => soma + quadrado peso)
                         (pesos_do_documento (modelo s2) d) 0)).
Proof.
  intros Hv.
  destruct (pipeline log10 quadrado cab linhas Hv)
    as [s1 [s2 [Hs1 [Hs2 [_ [_ [_ [Hmod Hnor]]]]]]]].
  exists s1, s2. split; [exact Hs1|]. split; [exact Hs2|].
  intros d Hd. rewrite Hnor.
  apply (normas_fechadas quadrado (modelo s2) d); [|exact Hd].
  rewrite Hmod. intros e. apply linhas_do_modelo_NoDup.
Qed.

Lemma C2_norma_do_documento_witness :
  forallb linha_valida linhas_exemplo = true
  /\ exists s1 s2,
       _carregar_lista_invertida novo (cabecalho :: linhas_exemplo) = Ok s1
       /\ _calcular_pesos log10_exemplos quadrado_exemplos s1 = Ok s2
       /\ forall d,
            (exists t pesos peso,
                PyDict.get string_dec (modelo s2) t = Some pesos
                /\ PyDict.get Z.eq_dec pesos d = Some peso) ->
            count_occ Z.eq_dec (PyDict.keys (normas_documentos s2)) d = 1%nat
            /\ PyDict.get Z.eq_dec (normas_documentos s2) d
               = Some (math_sqrt
                         (fold_left
                            (fun soma peso => soma + quadrado_exemplos peso)
                            (pesos_do_documento (modelo s2) d) 0)).
Proof.
  split; [reflexivity|].
  apply (@C2_norma_do_documento log10_exemplos quadrado_exemplos
           cabecalho linhas_exemplo).
  reflexivity.
Defined.

(** C6, as the code has it: the weight table holds a pair [(t, d)]
    exactly when [d] occurs in [t]'s occurrence sequence, whatever the
    weight; a missing pair means that [d] does not occur in the
    sequence. *)
Theorem C6_pares_armazenados (log10 quadrado : float -> float)
  (cab : linha) (linhas : list linha) :
  forallb linha_valida linhas = true ->
  exists s1 s2,
    _carregar_lista_invertida novo (cab :: linhas) = Ok s1
    /\ _calcular_pesos log10 quadrado s1 = Ok s2
    /\ forall t d,
         (exists pesos,
             PyDict.get string_dec (modelo s2) t = Some pesos
             /\ In d (PyDict.keys pesos))
         <-> (exists lista_docs,
                 PyDict.get string_dec (lista_invertida s1) t = Some lista_docs
                 /\ In d lista_docs).
Proof.
  intros Hv.
  destruct (pipeline log10 quadrado cab linhas Hv)
    as [s1 [s2 [Hs1 [Hs2 [_ [_ [_ [Hmod _]]]]]]]].
  exists s1, s2. split; [exact Hs1|]. split; [exact Hs2|].
  intros t d. rewrite Hmod, get_linhas_do_modelo.
  destruct (PyDict.get string_dec (lista_invertida s1) t) as [ld|]; simpl.
  - split.
    + intros [pesos [E I]]. inversion E; subst. exists ld. split; [reflexivity|].
      unfold PyDict.keys in I. rewrite map_map in I. simpl in I.
      apply contar_keys. exact I.
    + intros [ld' [E I]]. inversion E; subst. eexists. split; [reflexivity|].
      unfold PyDict.keys. rewrite map_map. simpl.
      apply contar_keys. exact I.
  - split; intros [x [E _]]; discriminate.
Qed.

Lemma C6_pares_armazenados_witness :
  forallb linha_valida linhas_exemplo = true
  /\ exists s1 s2,
       _carregar_lista_invertida novo (cabecalho :: linhas_exemplo) = Ok s1
       /\ _calcular_pesos log10_exemplos quadrado_exemplos s1 = Ok s2
       /\ forall t d,
            (exists pesos,
                PyDict.get string_dec (modelo s2) t = Some pesos
                /\ In d (PyDict.keys pesos))
            <-> (exists lista_docs,
                    PyDict.get string_dec (lista_invertida s1) t
                    = Some lista_docs
                    /\ In d lista_docs).
Proof.
  split; [reflexivity|].
  apply (@C6_pares_armazenados log10_exemplos quadrado_exemplos
           cabecalho linhas_exemplo).
  reflexivity.
Defined.

(** C6, as stated, fails on [{"cat": [1,1,2], "dog": [2]}]: "cat" occurs
    in both documents, its idf is [log10 (2/2) = 0], and the pairs
    ("cat", 1) and ("cat", 2) are stored with weight 0. *)
Lemma C6_peso_zero_armazenado :
  executar log10_exemplos quadrado_exemplos (cabecalho :: linhas_exemplo)
  = Some {| modelo_tfidf :=
              [("cat"%string, [(1%Z, 0); (2%Z, 0)]);
               ("dog"%string, [(2%Z, 0x1.34413509f79ffp-2)])];
            normas := [(1%Z, 0); (2%Z, 0x1.34413509f79ffp-2)] |}
  /\ (0 <? 0) = false.
Proof. split; vm_compute; reflexivity. Qed.

(** A record that cannot be evaluated stops the loading loop. *)
Lemma carregar_linha_invalida (linhas : list linha) (self : estado) :
  In LinhaInvalida linhas ->
  exists e, para_cada carregar_linha linhas self = Erro e.
Proof.
  revert self. induction linhas as [|l linhas IH]; intros self; simpl.
  - tauto.
  - intros [E|I].
    + subst l. simpl. eauto.
    + destruct l as [palavra lista_docs|]; simpl; [|eauto].
      apply IH. exact I.
Qed.

(** C8, as the code has it: the run is abandoned, and no model file is
    written, when a record of the inverted-list file cannot be unpacked
    or evaluated.  The document ids themselves are not inspected. *)
Theorem C8_linha_invalida_aborta (log10 quadrado : float -> float)
  (cab : linha) (linhas : list linha) :
  In LinhaInvalida linhas ->
  executar log10 quadrado (cab :: linhas) = None.
Proof.
  intros I. unfold executar. cbn [_carregar_lista_invertida].
  destruct (carregar_linha_invalida linhas novo I) as [e He].
  rewrite He. reflexivity.
Qed.

Lemma C8_linha_invalida_aborta_witness :
  In LinhaInvalida linhas_corrompidas
  /\ executar log10_exemplos quadrado_exemplos
       (cabecalho :: linhas_corrompidas) = None.
Proof.
  split.
  - right. left. reflexivity.
  - apply (@C8_linha_invalida_aborta log10_exemplos quadrado_exemplos
             cabecalho linhas_corrompidas).
    right. left. reflexivity.
Defined.

(** C8, as stated, fails on [{"cat": [-1, 2], "dog": [-1]}]: the
    negative id -1 is indexed like any other id and the model is
    saved. *)
Lemma C8_id_negativo_aceito :
  executar log10_exemplos quadrado_exemplos (cabecalho :: linhas_negativas)
  = Some {| modelo_tfidf :=
              [("cat"%string, [((-1)%Z, 0); (2%Z, 0)]);
               ("dog"%string, [((-1)%Z, 0x1.34413509f79ffp-2)])];
            normas := [((-1)%Z, 0x1.34413509f79ffp-2); (2%Z, 0)] |}.
Proof. vm_compute. reflexivity. Qed.

(** A well-formed, non-empty inverted list always leaves a model file,
    whatever the sign of its ids. *)
Lemma executar_salva (log10 quadrado : float -> float)
  (cab : linha) (linhas : list linha) :
  forallb linha_valida linhas = true -> linhas <> [] ->
  exists mc, executar log10 quadrado (cab :: linhas) = Some mc.
Proof.
  intros Hv Hne.
  destruct (pipeline log10 quadrado cab linhas Hv)
    as [s1 [s2 [Hs1 [Hs2 [_ [_ [Hp [Hmod _]]]]]]]].
  unfold executar. rewrite Hs1. cbn [bind]. rewrite Hs2.
  unfold _salvar_modelo. rewrite Hmod.
  destruct linhas as [|l linhas]; [congruence|].
  destruct l as [t ld|]; [|discriminate].
  specialize (Hp t ld (or_introl eq_refl)).
  destruct (lista_invertida s1); [contradiction|]. simpl. eauto.
Qed.

End IndexadorProps.

(* ================================================================= *)
(** ** The Buscador *)

Module BuscadorProps.
Import Buscador.

(** *** The model is only read *)

(** Under the guard [termo in self.modelo_tfidf] the access to the
    [defaultdict] inserts nothing. *)
Lemma somar_termo_eq (m : PyDict.dict string (PyDict.dict Z float))
  (scores_docs : PyDict.dict Z float) (termo : string) :
  somar_termo (m, scores_docs) termo
  = (m, match PyDict.get string_dec m termo with
        | Some pesos => somar_pesos scores_docs pesos
        | None => scores_docs
        end).
Proof.
  unfold somar_termo, PyDict.contains, PyDict.defaultdict_getitem.
  unfold PyDict.dict in *.
  destruct (PyDict.get string_dec m termo); reflexivity.
Qed.

Lemma somar_termos_eq (termos : list string)
  (m : PyDict.dict string (PyDict.dict Z float))
  (scores_docs : PyDict.dict Z float) :
  fold_left somar_termo termos (m, scores_docs)
  = (m, snd (fold_left somar_termo termos (m, scores_docs))).
Proof.
  revert scores_docs. induction termos as [|t termos IH];
    intros scores_docs; cbn [fold_left]; [reflexivity|].
  rewrite somar_termo_eq. apply IH.
Qed.

Lemma buscar_eq (self : estado) (query_num : Z) (query_text : string) :
  buscar self (query_num, query_text)
  = if norma_da_consulta (split query_text) =? 0 then self
    else {| modelo_tfidf := modelo_tfidf self;
            normas_documentos := normas_documentos self;
            consultas := consultas self;
            resultados_finais :=
              PyDict.set Z.eq_dec (resultados_finais self) query_num
                (ranking (modelo_tfidf self) (normas_documentos self)
                   query_text) |}.
Proof.
  unfold buscar, ranking, produto_escalar.
  destruct (norma_da_consulta (split query_text) =? 0); [reflexivity|].
  rewrite somar_termos_eq. reflexivity.
Qed.

Lemma buscar_modelo (self : estado) (consulta : Z * string) :
  modelo_tfidf (buscar self consulta) = modelo_tfidf self
  /\ normas_documentos (buscar self consulta) = normas_documentos self.
Proof.
  destruct consulta as [q text]. rewrite buscar_eq.
  destruct (norma_da_consulta (split text) =? 0); split; reflexivity.
Qed.

Lemma buscas_modelo (cs : list (Z * string)) (self : estado) :
  modelo_tfidf (fold_left buscar cs self) = modelo_tfidf self
  /\ normas_documentos (fold_left buscar cs self) = normas_documentos self.
Proof.
  revert self. induction cs as [|c cs IH]; intros self; simpl.
  - split; reflexivity.
  - destruct (IH (buscar self c)) as [Hm Hn].
    destruct (buscar_modelo self c) as [Hm' Hn'].
    split; congruence.
Qed.

(** C9: the scoring phase leaves the weight table and the norm table of
    the object exactly as it found them. *)
Theorem C9_modelo_inalterado (self : estado) :
  modelo_tfidf (_realizar_buscas self) = modelo_tfidf self
  /\ normas_documentos (_realizar_buscas self) = normas_documentos self.
Proof. apply buscas_modelo. Qed.

(** *** What is stored for a query *)

Lemma buscas_outra_consulta (cs : list (Z * string)) (self : estado) (q : Z) :
  ~ In q (PyDict.keys cs) ->
  PyDict.get Z.eq_dec (resultados_finais (fold_left buscar cs self)) q
  = PyDict.get Z.eq_dec (resultados_finais self) q.
Proof.
  revert self. induction cs as [|[q' text'] cs IH]; intros self Hq;
    cbn [fold_left].
  - reflexivity.
  - simpl in Hq. rewrite IH by tauto. rewrite buscar_eq.
    destruct (norma_da_consulta (split text') =? 0); [reflexivity|].
    simpl. apply get_set_neq. tauto.
Qed.

Lemma resultado_da_consulta (cs : list (Z * string)) (self : estado)
  (q : Z) (text : string) :
  NoDup (PyDict.keys cs) -> In (q, text) cs ->
  PyDict.get Z.eq_dec (resultados_finais (fold_left buscar cs self)) q
  = if norma_da_consulta (split text) =? 0
    then PyDict.get Z.eq_dec (resultados_finais self) q
    else Some (ranking (modelo_tfidf self) (normas_documentos self) text).
Proof.
  revert self. induction cs as [|[q' text'] cs IH]; intros self Hnd I.
  - destruct I.
  - simpl in Hnd. inversion Hnd as [|? ? Hq Hnd']; subst.
    cbn [fold_left]. destruct I as [E|I].
    + inversion E; subst. rewrite buscas_outra_consulta by exact Hq.
      rewrite buscar_eq.
      destruct (norma_da_consulta (split text) =? 0); [reflexivity|].
      simpl. apply get_set_eq.
    + rewrite IH by assumption.
      destruct (buscar_modelo self (q', text')) as [Hm Hn].
      rewrite Hm, Hn.
      destruct (norma_da_consulta (split text) =? 0); [|reflexivity].
      rewrite buscar_eq.
      destruct (norma_da_consulta (split text') =? 0); [reflexivity|].
      simpl. apply get_set_neq. intros E. subst q'.
      apply Hq. apply (in_map fst) in I. exact I.
Qed.

(** C7: a query whose text splits into no term is skipped: after the
    scoring phase the results hold no entry under its number. *)
Theorem C7_consulta_vazia_ignorada
  (m : PyDict.dict string (PyDict.dict Z float)) (n : PyDict.dict Z float)
  (cs : PyDict.dict Z string) (q : Z) (text : string) :
  NoDup (PyDict.keys cs) -> In (q, text) cs ->
  split text = [] ->
  PyDict.get Z.eq_dec
    (resultados_finais (_realizar_buscas (carregado m n cs))) q = None.
Proof.
  intros Hnd I Hs. unfold _realizar_buscas. simpl consultas.
  rewrite (resultado_da_consulta cs (carregado m n cs) q text Hnd I).
  rewrite Hs. reflexivity.
Qed.

(** *** The dot products *)

Lemma somar_pesos_desde (pesos scores_docs : PyDict.dict Z float) :
  (NoDup (PyDict.keys scores_docs) ->
   NoDup (PyDict.keys (somar_pesos scores_docs pesos)))
  /\ (forall d, In d (PyDict.keys (somar_pesos scores_docs pesos))
                <-> In d (PyDict.keys scores_docs)
                    \/ In d (PyDict.keys pesos)).
Proof.
  unfold somar_pesos. revert scores_docs.
  induction pesos as [|[doc peso] pesos IH]; intros scores_docs; simpl.
  - split; [auto | tauto].
  - destruct (IH (PyDict.set Z.eq_dec scores_docs doc
                    (PyDict.get_default Z.eq_dec scores_docs doc 0
                     + peso * 1))) as [Hnd Hk].
    split.
    + intros H. apply Hnd. apply NoDup_keys_set. exact H.
    + intros d. rewrite Hk, keys_set_In. intuition.
Qed.

Lemma produto_escalar_desde (m : PyDict.dict string (PyDict.dict Z float))
  (termos : list string) (scores_docs : PyDict.dict Z float) :
  let scores := snd (fold_left somar_termo termos (m, scores_docs)) in
  (NoDup (PyDict.keys scores_docs) -> NoDup (PyDict.keys scores))
  /\ (forall d, In d (PyDict.keys scores)
                <-> In d (PyDict.keys scores_docs)
                    \/ exists t pesos,
                         In t termos
                         /\ PyDict.get string_dec m t = Some pesos
                         /\ In d (PyDict.keys pesos)).
Proof.
  revert scores_docs. induction termos as [|t termos IH];
    intros scores_docs; cbn [fold_left].
  - simpl. split; [auto|]. intros d. split; [tauto|].
    intros [H|[t [pesos [[] _]]]]. exact H.
  - rewrite somar_termo_eq.
    destruct (PyDict.get string_dec m t) as [pesos|] eqn:E.
    + destruct (IH (somar_pesos scores_docs pesos)) as [Hnd Hk].
      destruct (somar_pesos_desde pesos scores_docs) as [Hnd1 Hk1].
      split; [auto|]. intros d. cbv zeta in Hk. rewrite Hk, Hk1. split.
      * intros [[H|H]|[t' [p' [I [G K]]]]].
        -- now left.
        -- right. exists t, pesos. simpl. auto.
        -- right. exists t', p'. simpl. auto.
      * intros [H|[t' [p' [[Et|I] [G K]]]]].
        -- left. now left.
        -- subst t'. rewrite E in G. inversion G; subst. left. now right.
        -- right. exists t', p'. auto.
    + destruct (IH scores_docs) as [Hnd Hk].
      split; [auto|]. intros d. cbv zeta in Hk. rewrite Hk. split.
      * intros [H|[t' [p' [I [G K]]]]]; [now left|].
        right. exists t', p'. simpl. auto.
      * intros [H|[t' [p' [[Et|I] [G K]]]]]; [now left| |].
        -- subst t'. congruence.
        -- right. exists t', p'. auto.
Qed.

Lemma produto_escalar_NoDup (m : PyDict.dict string (PyDict.dict Z float))
  (termos : list string) :
  NoDup (PyDict.keys (produto_escalar m termos)).
Proof.
  apply (produto_escalar_desde m termos []). constructor.
Qed.

Lemma produto_escalar_keys (m : PyDict.dict string (PyDict.dict Z float))
  (termos : list string) (d : Z) :
  In d (PyDict.keys (produto_escalar m termos))
  <-> exists t pesos,
        In t termos
        /\ PyDict.get string_dec m t = Some pesos
        /\ In d (PyDict.keys pesos).
Proof.
  destruct (produto_escalar_desde m termos []) as [_ Hk].
  unfold produto_escalar. cbv zeta in Hk. rewrite Hk. simpl. tauto.
Qed.

Lemma produto_escalar_em_comum (m : PyDict.dict string (PyDict.dict Z float))
  (termos : list string) :
  List.length (produto_escalar m termos)
  = List.length (documentos_em_comum m termos).
Proof.
  rewrite <- (length_map fst (produto_escalar m termos)).
  apply Permutation_length. apply NoDup_Permutation.
  - apply produto_escalar_NoDup.
  - apply NoDup_nodup.
  - intros d. fold (PyDict.keys (produto_escalar m termos)).
    rewrite produto_escalar_keys. unfold documentos_em_comum.
    rewrite nodup_In, in_flat_map. split.
    + intros [t [pesos [I [G K]]]]. exists t. rewrite G. auto.
    + intros [t [I K]].
      destruct (PyDict.get string_dec m t) as [pesos|] eqn:G; [|destruct K].
      exists t, pesos. auto.
Qed.

(** *** Normalising, sorting and numbering *)

Lemma pontuar_map (normas : PyDict.dict Z float) (norma_consulta : float)
  (scores_docs : PyDict.dict Z float) :
  NoDup (PyDict.keys scores_docs) ->
  pontuar normas norma_consulta scores_docs
  = map (fun kv => (fst kv, normalizar normas norma_consulta (fst kv) (snd kv)))
      scores_docs.
Proof. intros H. unfold pontuar. apply para_cada_chave_map. exact H. Qed.

Lemma inserir_perm (x : Z * float) (l : list (Z * float)) :
  Permutation (inserir x l) (x :: l).
Proof.
  induction l as [|y l IH]; simpl; [apply Permutation_refl|].
  destruct (snd x <? snd y); [|apply Permutation_refl].
  eapply Permutation_trans; [apply perm_skip, IH | apply perm_swap].
Qed.

Lemma sorted_reverse_perm (l : list (Z * float)) :
  Permutation (sorted_reverse l) l.
Proof.
  induction l as [|x l IH]; simpl; [constructor|].
  eapply Permutation_trans; [apply inserir_perm | apply perm_skip, IH].
Qed.

Lemma inserir_sorted (x : Z * float) (l : list (Z * float)) :
  nao_e_nan (snd x) -> Forall (fun y => nao_e_nan (snd y)) l ->
  Sorted nao_cresce l -> Sorted nao_cresce (inserir x l).
Proof.
  intros Hx Hl Hs. induction l as [|y l IH]; simpl.
  - repeat constructor.
  - inversion Hl as [|? ? Hy Hl']; subst.
    inversion Hs as [|? ? Hs' Hhd]; subst.
    destruct (snd x <? snd y) eqn:E.
    + constructor; [apply IH; assumption|].
      destruct l as [|z l]; simpl.
      * constructor. apply ltb_leb. exact E.
      * destruct (snd x <? snd z).
        -- inversion Hhd; subst. constructor. assumption.
        -- constructor. apply ltb_leb. exact E.
    + constructor; [exact Hs|]. constructor.
      apply nao_ltb_leb; assumption.
Qed.

Lemma sorted_reverse_sorted (l : list (Z * float)) :
  Forall (fun y => nao_e_nan (snd y)) l ->
  Sorted nao_cresce (sorted_reverse l).
Proof.
  induction l as [|x l IH]; intros H; simpl; [constructor|].
  inversion H as [|? ? Hx Hl]; subst.
  apply inserir_sorted; [exact Hx | | apply IH; exact Hl].
  apply Forall_forall. intros y Hy. rewrite Forall_forall in Hl.
  apply Hl. apply (Permutation_in _ (sorted_reverse_perm l)). exact Hy.
Qed.

Lemma formatar_posicoes (l : list (Z * float)) (i : nat) :
  map posicao (formatar i l) = seq (i + 1) (List.length l).
Proof.
  revert i. induction l as [|[d s] l IH]; intros i; simpl; [reflexivity|].
  unfold posicao at 1. simpl. f_equal. rewrite IH. reflexivity.
Qed.

Lemma formatar_length (l : list (Z * float)) (i : nat) :
  List.length (formatar i l) = List.length l.
Proof.
  revert i. induction l as [|[d s] l IH]; intros i; simpl; [reflexivity|].
  f_equal. apply IH.
Qed.

Lemma formatar_In (l : list (Z * float)) (i : nat) (d : Z) (s : float) :
  In (d, s) l -> exists pos, In (pos, d, s) (formatar i l).
Proof.
  revert i. induction l as [|[d' s'] l IH]; intros i; simpl; [tauto|].
  intros [E|I].
  - inversion E; subst. eauto.
  - destruct (IH (S i) I) as [pos H]. eauto.
Qed.

Lemma formatar_sem_nan (l : list (Z * float)) (i : nat) :
  Forall (fun t => nao_e_nan (pontuacao t)) (formatar i l) ->
  Forall (fun y => nao_e_nan (snd y)) l.
Proof.
  revert i. induction l as [|[d s] l IH]; intros i; simpl; intros H.
  - constructor.
  - inversion H; subst. constructor; [assumption | eapply IH; eassumption].
Qed.

Lemma formatar_descendente (l : list (Z * float)) (i : nat) :
  Sorted nao_cresce l -> descendente (formatar i l).
Proof.
  unfold descendente. revert i.
  induction l as [|[d s] l IH]; intros i H; simpl; [constructor|].
  inversion H as [|? ? Hs Hhd]; subst. constructor; [apply IH; exact Hs|].
  destruct l as [|[d' s'] l]; simpl; constructor.
  inversion Hhd; subst. assumption.
Qed.

Lemma ranking_descendente (m : PyDict.dict string (PyDict.dict Z float))
  (n : PyDict.dict Z float) (text : string) :
  Forall (fun t => nao_e_nan (pontuacao t)) (ranking m n text) ->
  descendente (ranking m n text).
Proof.
  unfold ranking. intros H. apply formatar_descendente.
  apply formatar_sem_nan in H.
  assert (Hl : Forall (fun y => nao_e_nan (snd y))
                 (pontuar n (norma_da_consulta (split text))
                    (produto_escalar m (split text)))).
  { apply Forall_forall. intros y Hy. rewrite Forall_forall in H.
    apply H. apply (Permutation_in _ (Permutation_sym (sorted_reverse_perm _))).
    exact Hy. }
  apply sorted_reverse_sorted. exact Hl.
Qed.

Lemma ranking_length (m : PyDict.dict string (PyDict.dict Z float))
  (n : PyDict.dict Z float) (text : string) :
  List.length (ranking m n text)
  = List.length (documentos_em_comum m (split text)).
Proof.
  unfold ranking. rewrite formatar_length.
  rewrite (Permutation_length (sorted_reverse_perm _)).
  rewrite pontuar_map by apply produto_escalar_NoDup.
  rewrite length_map. apply produto_escalar_em_comum.
Qed.

Lemma ranking_In (m : PyDict.dict string (PyDict.dict Z float))
  (n : PyDict.dict Z float) (text : string) (d : Z) (bruto : float) :
  PyDict.get Z.eq_dec (produto_escalar m (split text)) d = Some bruto ->
  exists pos,
    In (pos, d,
        normalizar n (norma_da_consulta (split text)) d bruto)
      (ranking m n text).
Proof.
  intros H. unfold ranking. apply formatar_In.
  apply (Permutation_in _ (Permutation_sym (sorted_reverse_perm _))).
  rewrite pontuar_map by apply produto_escalar_NoDup.
  apply get_Some_In in H.
  apply (in_map (fun kv =>
                   (fst kv,
                    normalizar n (norma_da_consulta (split text))
                      (fst kv) (snd kv)))) in H.
  exact H.
Qed.


(** A query that passes the guard has a term. *)
Lemma norma_nao_nula_termos (termos : list string) :
  (norma_da_consulta termos =? 0) = false -> termos <> [].
Proof. intros H E. subst termos. vm_compute in H. discriminate. Qed.

Lemma descendente_vizinhos (resultado : list terno) (i : nat) (a b : terno) :
  descendente resultado ->
  nth_error resultado i = Some a -> nth_error resultado (S i) = Some b ->
  (pontuacao b <=? pontuacao a) = true.
Proof.
  unfold descendente. revert i.
  induction resultado as [|x l IH]; intros i Hs Ha Hb.
  - destruct i; discriminate.
  - inversion Hs as [|? ? Hs' Hhd]; subst. destruct i as [|i].
    + simpl in Ha, Hb. inversion Ha; subst.
      destruct l as [|y l]; [discriminate|]. simpl in Hb.
      inversion Hb; subst. inversion Hhd; subst. assumption.
    + simpl in Ha. apply (IH i Hs' Ha Hb).
Qed.

Lemma resultado_do_ranking
  (m : PyDict.dict string (PyDict.dict Z float)) (n : PyDict.dict Z float)
  (cs : PyDict.dict Z string) (q : Z) (text : string) :
  NoDup (PyDict.keys cs) -> In (q, text) cs ->
  (norma_da_consulta (split text) =? 0) = false ->
  PyDict.get Z.eq_dec
    (resultados_finais (_realizar_buscas (carregado m n cs))) q
  = Some (ranking m n text).
Proof.
  intros Hnd I Hg. unfold _realizar_buscas. simpl consultas.
  rewrite (resultado_da_consulta cs (carregado m n cs) q text Hnd I).
  rewrite Hg. reflexivity.
Qed.

(** *** The claims about the Buscador *)

(** C4: for a query that passes the guard of the empty queries (it has
    at least one term) and whose scores are numbers, the list stored
    for the query descends by score, its positions are 1, 2, ..., k in
    that order, and k is the number of distinct documents that some
    term of the query references in the weight table. *)
Theorem C4_ranking_ordenado
  (m : PyDict.dict string (PyDict.dict Z float)) (n : PyDict.dict Z float)
  (cs : PyDict.dict Z string) (q : Z) (text : string) :
  NoDup (PyDict.keys cs) -> In (q, text) cs ->
  (norma_da_consulta (split text) =? 0) = false ->
  Forall (fun t => nao_e_nan (pontuacao t)) (ranking m n text) ->
  exists resultado,
    PyDict.get Z.eq_dec
      (resultados_finais (_realizar_buscas (carregado m n cs))) q
    = Some resultado
    /\ descendente resultado
    /\ map posicao resultado = seq 1 (List.length resultado)
    /\ List.length resultado
       = List.length (documentos_em_comum m (split text)).
Proof.
  intros Hnd I Hg Hnan. exists (ranking m n text).
  split; [apply resultado_do_ranking; assumption|].
  split; [apply ranking_descendente; exact Hnan|].
  split; [|apply ranking_length].
  unfold ranking. rewrite formatar_posicoes, formatar_length. reflexivity.
Qed.

Lemma C4_ranking_ordenado_witness :
  NoDup (PyDict.keys consultas_exemplo)
  /\ In (3%Z, "cat dog"%string) consultas_exemplo
  /\ (norma_da_consulta (split "cat dog") =? 0) = false
  /\ Forall (fun t => nao_e_nan (pontuacao t))
       (ranking modelo_exemplo normas_exemplo "cat dog")
  /\ exists resultado,
       PyDict.get Z.eq_dec
         (resultados_finais
            (_realizar_buscas
               (carregado modelo_exemplo normas_exemplo consultas_exemplo)))
         3%Z
       = Some resultado
       /\ descendente resultado
       /\ map posicao resultado = seq 1 (List.length resultado)
       /\ List.length resultado
          = List.length (documentos_em_comum modelo_exemplo (split "cat dog")).
Proof.
  assert (Hnd : NoDup (PyDict.keys consultas_exemplo)).
  { simpl. repeat constructor; simpl; intuition discriminate. }
  assert (Hin : In (3%Z, "cat dog"%string) consultas_exemplo)
    by (simpl; tauto).
  assert (Hg : (norma_da_consulta (split "cat dog") =? 0) = false)
    by (vm_compute; reflexivity).
  assert (Hnan : Forall (fun t => nao_e_nan (pontuacao t))
                   (ranking modelo_exemplo normas_exemplo "cat dog")).
  { vm_compute. repeat constructor. }
  repeat (split; [assumption|]).
  apply (@C4_ranking_ordenado modelo_exemplo normas_exemplo
           consultas_exemplo 3%Z "cat dog"%string Hnd Hin Hg Hnan).
Defined.

(** C5, as the code has it: the ranked sequence descends by score, but
    not strictly: the score of each entry is greater than or equal to
    the score of the entry that follows it. *)
Theorem C5_ranking_nao_crescente
  (m : PyDict.dict string (PyDict.dict Z float)) (n : PyDict.dict Z float)
  (cs : PyDict.dict Z string) (q : Z) (text : string) :
  NoDup (PyDict.keys cs) -> In (q, text) cs ->
  (norma_da_consulta (split text) =? 0) = false ->
  Forall (fun t => nao_e_nan (pontuacao t)) (ranking m n text) ->
  exists resultado,
    PyDict.get Z.eq_dec
      (resultados_finais (_realizar_buscas (carregado m n cs))) q
    = Some resultado
    /\ forall i a b,
         nth_error resultado i = Some a ->
         nth_error resultado (S i) = Some b ->
         (pontuacao b <=? pontuacao a) = true.
Proof.
  intros Hnd I Hg Hnan. exists (ranking m n text).
  split; [apply resultado_do_ranking; assumption|].
  intros i a b. apply descendente_vizinhos.
  apply ranking_descendente. exact Hnan.
Qed.

Lemma C5_ranking_nao_crescente_witness :
  NoDup (PyDict.keys consultas_empate)
  /\ In (8%Z, "A"%string) consultas_empate
  /\ (norma_da_consulta (split "A") =? 0) = false
  /\ Forall (fun t => nao_e_nan (pontuacao t))
       (ranking modelo_avulso normas_avulsas "A")
  /\ exists resultado,
       PyDict.get Z.eq_dec
         (resultados_finais
            (_realizar_buscas
               (carregado modelo_avulso normas_avulsas consultas_empate)))
         8%Z
       = Some resultado
       /\ forall i a b,
            nth_error resultado i = Some a ->
            nth_error resultado (S i) = Some b ->
            (pontuacao b <=? pontuacao a) = true.
Proof.
  assert (Hnd : NoDup (PyDict.keys consultas_empate)).
  { simpl. repeat constructor; simpl; intuition discriminate. }
  assert (Hin : In (8%Z, "A"%string) consultas_empate)
    by (simpl; tauto).
  assert (Hg : (norma_da_consulta (split "A") =? 0) = false)
    by (vm_compute; reflexivity).
  assert (Hnan : Forall (fun t => nao_e_nan (pontuacao t))
                   (ranking modelo_avulso normas_avulsas "A")).
  { vm_compute. repeat constructor. }
  repeat (split; [assumption|]).
  apply (@C5_ranking_nao_crescente modelo_avulso normas_avulsas
           consultas_empate 8%Z "A"%string Hnd Hin Hg Hnan).
Defined.

(** C5, as stated, fails.  In the model that the Indexador builds from
    [{"cat": [1,1,2], "dog": [2]}] the query "cat" gives both documents
    the score 0.  In a model where the documents 2 and 3 have the same
    weight for "A" and the same norm, the query "A" gives them the same
    score, and their entries follow each other. *)
Lemma C5_empate_no_ranking :
  PyDict.get Z.eq_dec
    (resultados_finais
       (_realizar_buscas
          (carregado modelo_exemplo normas_exemplo consultas_exemplo)))
    4%Z
  = Some [(1%nat, 1%Z, 0); (2%nat, 2%Z, 0)]
  /\ PyDict.get Z.eq_dec
       (resultados_finais
          (_realizar_buscas
             (carregado modelo_avulso normas_avulsas consultas_empate)))
       8%Z
     = Some [(1%nat, 1%Z, 0.5); (2%nat, 2%Z, 0.5); (3%nat, 3%Z, 0.5);
             (4%nat, 4%Z, 0.25)]
  /\ (0 <? 0) = false /\ (0.5 <? 0.5) = false.
Proof. repeat split; vm_compute; reflexivity. Qed.

(** C3, as the code has it: a document whose stored norm is not
    greater than 0, in particular a norm of exactly 0, is not dropped:
    the division is skipped and the document stays in the ranked list
    of the query with its accumulated score as it is. *)
Theorem C3_norma_zero_mantida
  (m : PyDict.dict string (PyDict.dict Z float)) (n : PyDict.dict Z float)
  (cs : PyDict.dict Z string) (q : Z) (text : string)
  (d : Z) (norma_doc bruto : float) :
  NoDup (PyDict.keys cs) -> In (q, text) cs ->
  (norma_da_consulta (split text) =? 0) = false ->
  PyDict.get Z.eq_dec n d = Some norma_doc ->
  (0 <? norma_doc) = false ->
  PyDict.get Z.eq_dec (produto_escalar m (split text)) d = Some bruto ->
  exists pos resultado,
    PyDict.get Z.eq_dec
      (resultados_finais (_realizar_buscas (carregado m n cs))) q
    = Some resultado
    /\ In (pos, d, bruto) resultado.
Proof.
  intros Hnd I Hg Hn Hz Hb.
  destruct (ranking_In m n text d Hb) as [pos Hpos].
  exists pos, (ranking m n text).
  split; [apply resultado_do_ranking; assumption|].
  unfold normalizar, PyDict.get_default in Hpos.
  rewrite Hn, Hz in Hpos. exact Hpos.
Qed.

Lemma C3_norma_zero_mantida_witness :
  NoDup (PyDict.keys consultas_avulsas)
  /\ In (7%Z, "A B"%string) consultas_avulsas
  /\ (norma_da_consulta (split "A B") =? 0) = false
  /\ PyDict.get Z.eq_dec normas_avulsas 1%Z = Some 0
  /\ (0 <? 0) = false
  /\ PyDict.get Z.eq_dec (produto_escalar modelo_avulso (split "A B")) 1%Z
     = Some 0.5
  /\ exists pos resultado,
       PyDict.get Z.eq_dec
         (resultados_finais
            (_realizar_buscas
               (carregado modelo_avulso normas_avulsas consultas_avulsas)))
         7%Z
       = Some resultado
       /\ In (pos, 1%Z, 0.5) resultado.
Proof.
  assert (Hnd : NoDup (PyDict.keys consultas_avulsas)).
  { simpl. repeat constructor; simpl; intuition discriminate. }
  assert (Hin : In (7%Z, "A B"%string) consultas_avulsas)
    by (simpl; tauto).
  assert (Hg : (norma_da_consulta (split "A B") =? 0) = false)
    by (vm_compute; reflexivity).
  assert (Hn : PyDict.get Z.eq_dec normas_avulsas 1%Z = Some 0)
    by reflexivity.
  assert (Hz : (0 <? 0) = false) by reflexivity.
  assert (Hb : PyDict.get Z.eq_dec
                 (produto_escalar modelo_avulso (split "A B")) 1%Z
               = Some 0.5) by (vm_compute; reflexivity).
  repeat (split; [assumption|]).
  apply (@C3_norma_zero_mantida modelo_avulso normas_avulsas
           consultas_avulsas 7%Z "A B"%string 1%Z 0 0.5
           Hnd Hin Hg Hn Hz Hb).
Defined.

(** C3, as stated, fails.  In the model that the Indexador builds from
    [{"cat": [1,1,2], "dog": [2]}] the document 1 has a stored norm of
    0, and the query "cat dog" ranks it, second, with score 0.  In a
    model where the document 1 has weight 0.5 for "A" and a stored norm
    of 0, the query "A B" ranks it first with its raw score 0.5. *)
Lemma C3_norma_zero_no_ranking :
  (PyDict.get Z.eq_dec normas_exemplo 1%Z = Some 0
   /\ PyDict.get Z.eq_dec
        (resultados_finais
           (_realizar_buscas
              (carregado modelo_exemplo normas_exemplo consultas_exemplo)))
        3%Z
      = Some [(1%nat, 2%Z,
               0x1.34413509f79ffp-2
               / (0x1.34413509f79ffp-2 * math_sqrt 2));
              (2%nat, 1%Z, 0)])
  /\ (PyDict.get Z.eq_dec normas_avulsas 1%Z = Some 0
      /\ PyDict.get Z.eq_dec
           (resultados_finais
              (_realizar_buscas
                 (carregado modelo_avulso normas_avulsas consultas_avulsas)))
           7%Z
         = Some [(1%nat, 1%Z, 0.5);
                 (2%nat, 2%Z, 0.5 / (1 * math_sqrt 2));
                 (3%nat, 3%Z, 0.5 / (1 * math_sqrt 2));
                 (4%nat, 4%Z, 0.25 / (1 * math_sqrt 2))]).
Proof. repeat split; vm_compute; reflexivity. Qed.

(** C10: a document that a term of the query references in the weight
    table and that has no entry in the norm table stays in the ranked
    list of the query, with its accumulated score divided by
    [1 * norma_consulta]. *)
Theorem C10_norma_ausente
  (m : PyDict.dict string (PyDict.dict Z float)) (n : PyDict.dict Z float)
  (cs : PyDict.dict Z string) (q : Z) (text : string) (d : Z) :
  NoDup (PyDict.keys cs) -> In (q, text) cs ->
  (norma_da_consulta (split text) =? 0) = false ->
  PyDict.get Z.eq_dec n d = None ->
  (exists t pesos,
      In t (split text)
      /\ PyDict.get string_dec m t = Some pesos
      /\ In d (PyDict.keys pesos)) ->
  exists bruto pos resultado,
    PyDict.get Z.eq_dec (produto_escalar m (split text)) d = Some bruto
    /\ PyDict.get Z.eq_dec
         (resultados_finais (_realizar_buscas (carregado m n cs))) q
       = Some resultado
    /\ In (pos, d, bruto / (1 * norma_da_consulta (split text))) resultado.
Proof.
  intros Hnd I Hg Hn Hd.
  apply produto_escalar_keys in Hd.
  apply get_Some_keys with (dec := Z.eq_dec) in Hd.
  destruct Hd as [bruto Hb].
  destruct (ranking_In m n text d Hb) as [pos Hpos].
  exists bruto, pos, (ranking m n text).
  split; [exact Hb|].
  split; [apply resultado_do_ranking; assumption|].
  unfold normalizar, PyDict.get_default in Hpos.
  rewrite Hn in Hpos. exact Hpos.
Qed.

Lemma C10_norma_ausente_witness :
  NoDup (PyDict.keys consultas_avulsas)
  /\ In (7%Z, "A B"%string) consultas_avulsas
  /\ (norma_da_consulta (split "A B") =? 0) = false
  /\ PyDict.get Z.eq_dec normas_avulsas 4%Z = None
  /\ (exists t pesos,
         In t (split "A B")
         /\ PyDict.get string_dec modelo_avulso t = Some pesos
         /\ In 4%Z (PyDict.keys pesos))
  /\ exists bruto pos resultado,
       PyDict.get Z.eq_dec (produto_escalar modelo_avulso (split "A B")) 4%Z
       = Some bruto
       /\ PyDict.get Z.eq_dec
            (resultados_finais
               (_realizar_buscas
                  (carregado modelo_avulso normas_avulsas consultas_avulsas)))
            7%Z
          = Some resultado
       /\ In (pos, 4%Z, bruto / (1 * norma_da_consulta (split "A B")))
            resultado.
Proof.
  assert (Hnd : NoDup (PyDict.keys consultas_avulsas)).
  { simpl. repeat constructor; simpl; intuition discriminate. }
  assert (Hin : In (7%Z, "A B"%string) consultas_avulsas)
    by (simpl; tauto).
  assert (Hg : (norma_da_consulta (split "A B") =? 0) = false)
    by (vm_compute; reflexivity).
  assert (Hn : PyDict.get Z.eq_dec normas_avulsas 4%Z = None)
    by reflexivity.
  assert (Hd : exists t pesos,
             In t (split "A B")
             /\ PyDict.get string_dec modelo_avulso t = Some pesos
             /\ In 4%Z (PyDict.keys pesos)).
  { exists "A"%string, [(1%Z, 0.5); (2%Z, 0.5); (3%Z, 0.5); (4%Z, 0.25)].
    split; [left; reflexivity|]. split; [reflexivity|]. simpl. tauto. }
  repeat (split; [assumption|]).
  apply (@C10_norma_ausente modelo_avulso normas_avulsas
           consultas_avulsas 7%Z "A B"%string 4%Z Hnd Hin Hg Hn Hd).
Defined.

Lemma C7_consulta_vazia_ignorada_witness :
  NoDup (PyDict.keys consultas_exemplo)
  /\ In (2%Z, "   "%string) consultas_exemplo
  /\ split "   " = []
  /\ PyDict.get Z.eq_dec
       (resultados_finais
          (_realizar_buscas
             (carregado modelo_exemplo normas_exemplo consultas_exemplo)))
       2%Z = None.
Proof.
  assert (Hnd : NoDup (PyDict.keys consultas_exemplo)).
  { simpl. repeat constructor; simpl; intuition discriminate. }
  assert (Hin : In (2%Z, "   "%string) consultas_exemplo)
    by (simpl; tauto).
  assert (Hs : split "   " = []) by reflexivity.
  repeat (split; [assumption|]).
  apply (@C7_consulta_vazia_ignorada modelo_exemplo normas_exemplo
           consultas_exemplo 2%Z "   "%string Hnd Hin Hs).
Defined.

(** The model of the examples is the one that the Indexador saves for
    [{"cat": [1,1,2], "dog": [2]}]. *)
Example modelo_exemplo_do_indexador :
  Indexador.executar Indexador.log10_exemplos Indexador.quadrado_exemplos
    (Indexador.cabecalho :: Indexador.linhas_exemplo)
  = Some {| Indexador.modelo_tfidf := modelo_exemplo;
            Indexador.normas := normas_exemplo |}.
Proof. vm_compute. reflexivity. Qed.

(** The example of the specification: the query "dog" against the
    model of [{"cat": [1,1,2], "dog": [2]}] ranks the document 2 alone,
    with similarity 1. *)
Example ranking_dog :
  ranking modelo_exemplo normas_exemplo "dog" = [(1%nat, 2%Z, 1)].
Proof. vm_compute. reflexivity. Qed.

End BuscadorProps.

(* ================================================================= *)
(** ** More about the Indexador *)

Lemma para_cada_app {A S : Type} (corpo : S -> A -> resultado S)
  (l1 l2 : list A) (s : S) :
  para_cada corpo (l1 ++ l2) s
  = (s' <- para_cada corpo l1 s ;; para_cada corpo l2 s').
Proof.
  revert s. induction l1 as [|a l1 IH]; intros s; simpl; [reflexivity|].
  destruct (corpo s a) as [s'|e]; simpl; [apply IH | reflexivity].
Qed.

Module IndexadorExtras.
Import Indexador IndexadorProps.

(** *** Loading, whatever the records *)

Lemma carregar_linhas_campos (linhas : list linha) (self s1 : estado) :
  para_cada carregar_linha linhas self = Ok s1 ->
  documentos s1 = set_update (documentos self) (ids_das_linhas linhas)
  /\ modelo s1 = modelo self
  /\ normas_documentos s1 = normas_documentos self.
Proof.
  revert self. induction linhas as [|l linhas IH]; intros self; simpl.
  - intros E. inversion E; subst. auto.
  - destruct l as [palavra lista_docs|]; simpl; [|discriminate].
    intros E. destruct (IH _ E) as [Hd [Hm Hn]]. simpl in Hd, Hm, Hn.
    repeat split; try assumption.
    rewrite Hd. apply set_update_app.
Qed.

Lemma carregar_linhas_outra_palavra (linhas : list linha) (self s1 : estado)
  (t : string) :
  para_cada carregar_linha linhas self = Ok s1 ->
  (forall lista_docs, ~ In (Linha t lista_docs) linhas) ->
  PyDict.get string_dec (lista_invertida s1) t
  = PyDict.get string_dec (lista_invertida self) t.
Proof.
  revert self. induction linhas as [|l linhas IH]; intros self; simpl.
  - intros E _. inversion E; subst. reflexivity.
  - destruct l as [palavra lista_docs|]; simpl; [|discriminate].
    intros E Hn. rewrite (IH _ E).
    + simpl. apply get_set_neq. intros Eq. subst palavra.
      apply (Hn lista_docs). now left.
    + intros ld I. apply (Hn ld). now right.
Qed.

(** X1: when a term has several records in the inverted-list file, the
    sequence of its last record replaces the earlier ones, while the
    document ids of every record, replaced or not, are counted in the
    size of the collection. *)
Theorem X1_ultimo_registro_da_palavra (cab : linha) (pre pos : list linha)
  (t : string) (lista_docs : list Z) (s1 : estado) :
  _carregar_lista_invertida novo (cab :: pre ++ Linha t lista_docs :: pos)
  = Ok s1 ->
  (forall outra, ~ In (Linha t outra) pos) ->
  PyDict.get string_dec (lista_invertida s1) t = Some lista_docs
  /\ List.length (documentos s1)
     = len_set (ids_das_linhas (pre ++ Linha t lista_docs :: pos)).
Proof.
  cbn [_carregar_lista_invertida]. intros E Hpos. split.
  - rewrite para_cada_app in E.
    destruct (para_cada carregar_linha pre novo) as [s0|e] eqn:E0;
      [|discriminate].
    cbn [bind para_cada carregar_linha] in E.
    rewrite (carregar_linhas_outra_palavra pos _ t E Hpos). simpl.
    apply get_set_eq.
  - destruct (carregar_linhas_campos _ _ E) as [Hd _]. rewrite Hd.
    apply set_update_len.
Qed.

Lemma X1_ultimo_registro_da_palavra_witness :
  _carregar_lista_invertida novo
    (cabecalho
     :: [Linha "cat" [1; 1; 2]%Z] ++ Linha "cat" [3]%Z :: [Linha "dog" [2]%Z])
  = Ok {| lista_invertida := [("cat"%string, [3]%Z); ("dog"%string, [2]%Z)];
          documentos := [1; 2; 3]%Z;
          modelo := []; normas_documentos := [] |}
  /\ (forall outra, ~ In (Linha "cat" outra) [Linha "dog" [2]%Z])
  /\ PyDict.get string_dec [("cat"%string, [3]%Z); ("dog"%string, [2]%Z)]
       "cat"%string = Some [3]%Z
  /\ 3%nat
     = len_set
         (ids_das_linhas
            ([Linha "cat" [1; 1; 2]%Z] ++ Linha "cat" [3]%Z
             :: [Linha "dog" [2]%Z])).
Proof.
  assert (E : _carregar_lista_invertida novo
                (cabecalho
                 :: [Linha "cat" [1; 1; 2]%Z] ++ Linha "cat" [3]%Z
                 :: [Linha "dog" [2]%Z])
              = Ok {| lista_invertida :=
                        [("cat"%string, [3]%Z); ("dog"%string, [2]%Z)];
                      documentos := [1; 2; 3]%Z;
                      modelo := []; normas_documentos := [] |})
    by reflexivity.
  assert (H : forall outra, ~ In (Linha "cat" outra) [Linha "dog" [2]%Z]).
  { intros outra [C|[]]. discriminate. }
  split; [exact E|]. split; [exact H|].
  exact (@X1_ultimo_registro_da_palavra cabecalho
           [Linha "cat" [1; 1; 2]%Z] [Linha "dog" [2]%Z]
           "cat"%string [3]%Z _ E H).
Defined.

(** *** Empty sequences and empty collections *)

Lemma pesos_palavra_erro (log10 : float -> float) (N : nat)
  (itens : PyDict.dict string (list Z))
  (m : PyDict.dict string (PyDict.dict Z float)) (t : string) :
  In (t, []) itens ->
  para_cada (pesos_palavra log10 N) itens m = Erro ZeroDivisionError.
Proof.
  revert m. induction itens as [|[t' ld] itens IH]; intros m; [intros []|].
  intros [E|I]; cbn [para_cada].
  - inversion E; subst. reflexivity.
  - unfold pesos_palavra at 1.
    destruct (Nat.eqb (len_set ld) 0); [reflexivity|].
    cbn [bind]. apply IH. exact I.
Qed.

(** X2: when the collection has at least one document and the sequence
    loaded for some term is empty, the division of the idf raises
    [ZeroDivisionError] in [_calcular_pesos] and the run saves no
    model. *)
Theorem X2_sequencia_vazia_aborta (log10 quadrado : float -> float)
  (cab : linha) (linhas : list linha) (s1 : estado) (t : string) :
  _carregar_lista_invertida novo (cab :: linhas) = Ok s1 ->
  PyDict.get string_dec (lista_invertida s1) t = Some [] ->
  ids_das_linhas linhas <> [] ->
  _calcular_pesos log10 quadrado s1 = Erro ZeroDivisionError
  /\ executar log10 quadrado (cab :: linhas) = None.
Proof.
  intros E Ht Hids.
  assert (Hc : _calcular_pesos log10 quadrado s1 = Erro ZeroDivisionError).
  { cbn [_carregar_lista_invertida] in E.
    destruct (carregar_linhas_campos _ _ E) as [Hd _]. simpl in Hd.
    unfold _calcular_pesos. rewrite Hd, set_update_len.
    destruct (ids_das_linhas linhas) as [|d ids] eqn:Eids; [congruence|].
    pose proof (len_set_positivo (d :: ids) d (or_introl eq_refl)) as Hp.
    destruct (Nat.eqb_spec (len_set (d :: ids)) 0) as [E0|_]; [lia|].
    rewrite (pesos_palavra_erro log10 _ _ _ t); [reflexivity|].
    apply get_Some_In with (dec := string_dec). exact Ht. }
  split; [exact Hc|].
  unfold executar. rewrite E. cbn [bind]. rewrite Hc. reflexivity.
Qed.

Lemma X2_sequencia_vazia_aborta_witness :
  _carregar_lista_invertida novo
    [cabecalho; Linha "cat" [1; 2]%Z; Linha "dog" []]
  = Ok {| lista_invertida := [("cat"%string, [1; 2]%Z); ("dog"%string, [])];
          documentos := [1; 2]%Z;
          modelo := []; normas_documentos := [] |}
  /\ ids_das_linhas [Linha "cat" [1; 2]%Z; Linha "dog" []] <> []
  /\ _calcular_pesos log10_exemplos quadrado_exemplos
       {| lista_invertida := [("cat"%string, [1; 2]%Z); ("dog"%string, [])];
          documentos := [1; 2]%Z;
          modelo := []; normas_documentos := [] |}
     = Erro ZeroDivisionError
  /\ executar log10_exemplos quadrado_exemplos
       [cabecalho; Linha "cat" [1; 2]%Z; Linha "dog" []] = None.
Proof.
  assert (E : _carregar_lista_invertida novo
                [cabecalho; Linha "cat" [1; 2]%Z; Linha "dog" []]
              = Ok {| lista_invertida :=
                        [("cat"%string, [1; 2]%Z); ("dog"%string, [])];
                      documentos := [1; 2]%Z;
                      modelo := []; normas_documentos := [] |})
    by reflexivity.
  assert (H : ids_das_linhas [Linha "cat" [1; 2]%Z; Linha "dog" []] <> [])
    by discriminate.
  split; [exact E|]. split; [exact H|].
  exact (@X2_sequencia_vazia_aborta log10_exemplos quadrado_exemplos
           cabecalho [Linha "cat" [1; 2]%Z; Linha "dog" []] _ "dog"%string
           E eq_refl H).
Defined.

(** X3: when no record of the file carries a document id, the weights
    are not computed at all: [_calcular_pesos] returns the object as it
    is, without raising even on the empty sequences, and no model is
    saved. *)
Theorem X3_colecao_vazia (log10 quadrado : float -> float)
  (cab : linha) (linhas : list linha) (s1 : estado) :
  _carregar_lista_invertida novo (cab :: linhas) = Ok s1 ->
  ids_das_linhas linhas = [] ->
  _calcular_pesos log10 quadrado s1 = Ok s1
  /\ executar log10 quadrado (cab :: linhas) = None.
Proof.
  intros E Hids.
  assert (Hf := E). cbn [_carregar_lista_invertida] in Hf.
  destruct (carregar_linhas_campos _ _ Hf) as [Hd [Hm _]].
  simpl in Hd, Hm. rewrite Hids in Hd.
  assert (Hc : _calcular_pesos log10 quadrado s1 = Ok s1).
  { unfold _calcular_pesos. rewrite Hd. reflexivity. }
  split; [exact Hc|].
  unfold executar. rewrite E. cbn [bind]. rewrite Hc.
  unfold _salvar_modelo. rewrite Hm. reflexivity.
Qed.

Lemma X3_colecao_vazia_witness :
  _carregar_lista_invertida novo [cabecalho; Linha "cat" []]
  = Ok {| lista_invertida := [("cat"%string, [])]; documentos := [];
          modelo := []; normas_documentos := [] |}
  /\ ids_das_linhas [Linha "cat" []] = []
  /\ _calcular_pesos log10_exemplos quadrado_exemplos
       {| lista_invertida := [("cat"%string, [])]; documentos := [];
          modelo := []; normas_documentos := [] |}
     = Ok {| lista_invertida := [("cat"%string, [])]; documentos := [];
             modelo := []; normas_documentos := [] |}
  /\ executar log10_exemplos quadrado_exemplos
       [cabecalho; Linha "cat" []] = None.
Proof.
  assert (E : _carregar_lista_invertida novo [cabecalho; Linha "cat" []]
              = Ok {| lista_invertida := [("cat"%string, [])];
                      documentos := [];
                      modelo := []; normas_documentos := [] |})
    by reflexivity.
  split; [exact E|]. split; [reflexivity|].
  exact (@X3_colecao_vazia log10_exemplos quadrado_exemplos
           cabecalho [Linha "cat" []] _ E eq_refl).
Defined.

(** *** The documents of the norm table *)

Lemma chaves_das_normas (quadrado : float -> float)
  (m : PyDict.dict string (PyDict.dict Z float)) (d : Z) :
  NoDup (PyDict.keys m) ->
  In d (PyDict.keys
          (para_cada_chave Z.eq_dec (fun _ s => math_sqrt s)
             (acumular_normas quadrado m [])))
  <-> exists t pesos,
        PyDict.get string_dec m t = Some pesos /\ In d (PyDict.keys pesos).
Proof.
  intros Hkm.
  destruct (acumular_normas_desde quadrado m []) as [Hnd' [Hk _]].
  cbv zeta in Hnd', Hk. specialize (Hnd' (NoDup_nil _)).
  rewrite para_cada_chave_map by exact Hnd'.
  pose proof (keys_map_valores (fun (_ : Z) s => math_sqrt s)
                (acumular_normas quadrado m [])) as Hkeys.
  cbv beta in Hkeys. rewrite Hkeys, Hk. simpl. split.
  - intros [[]|[[t pesos] [I K]]]. exists t, pesos. split; [|exact K].
    apply In_get; assumption.
  - intros [t [pesos [G K]]]. right. exists (t, pesos). split; [|exact K].
    apply get_Some_In with (dec := string_dec). exact G.
Qed.

Lemma modelo_chaves_NoDup (log10 : float -> float) (N : nat)
  (itens : PyDict.dict string (list Z)) :
  NoDup (PyDict.keys itens) ->
  NoDup (PyDict.keys (map (linha_do_modelo log10 N) itens)).
Proof.
  intros H. unfold PyDict.keys. rewrite map_map. simpl. exact H.
Qed.

(** X4: on an inverted list whose records are terms with non-empty
    sequences, the norm table has an entry for a document exactly when
    some row of the weight table references that document. *)
Theorem X4_normas_dos_documentos_do_modelo (log10 quadrado : float -> float)
  (cab : linha) (linhas : list linha) :
  forallb linha_valida linhas = true ->
  exists s1 s2,
    _carregar_lista_invertida novo (cab :: linhas) = Ok s1
    /\ _calcular_pesos log10 quadrado s1 = Ok s2
    /\ forall d,
         In d (PyDict.keys (normas_documentos s2))
         <-> exists t pesos,
               PyDict.get string_dec (modelo s2) t = Some pesos
               /\ In d (PyDict.keys pesos).
Proof.
  intros Hv.
  destruct (pipeline log10 quadrado cab linhas Hv)
    as [s1 [s2 [Hs1 [Hs2 [Hnd [_ [_ [Hmod Hnor]]]]]]]].
  exists s1, s2. split; [exact Hs1|]. split; [exact Hs2|].
  intros d. rewrite Hnor. apply chaves_das_normas.
  rewrite Hmod. apply modelo_chaves_NoDup. exact Hnd.
Qed.

Lemma X4_normas_dos_documentos_do_modelo_witness :
  forallb linha_valida linhas_exemplo = true
  /\ exists s1 s2,
       _carregar_lista_invertida novo (cabecalho :: linhas_exemplo) = Ok s1
       /\ _calcular_pesos log10_exemplos quadrado_exemplos s1 = Ok s2
       /\ forall d,
            In d (PyDict.keys (normas_documentos s2))
            <-> exists t pesos,
                  PyDict.get string_dec (modelo s2) t = Some pesos
                  /\ In d (PyDict.keys pesos).
Proof.
  split; [reflexivity|].
  apply (@X4_normas_dos_documentos_do_modelo log10_exemplos
           quadrado_exemplos cabecalho linhas_exemplo).
  reflexivity.
Defined.

(** *** The configuration file *)




(** X6: with an accepted configuration, an inverted-list file at the
    path of [LEIA] and records that are terms with non-empty sequences,
    at least one, the run writes a model, at the path of [ESCREVA]. *)
Theorem X6_execucao_salva_no_caminho (log10 quadrado : float -> float)
  (configuracao : list string) (c : IndexadorES.config)
  (abrir : string -> option (list linha))
  (cab : linha) (linhas : list linha) :
  IndexadorES._ler_config configuracao = Ok c ->
  abrir (IndexadorES.arquivo_leitura c) = Some (cab :: linhas) ->
  forallb linha_valida linhas = true -> linhas <> [] ->
  exists mc,
    IndexadorES.executar log10 quadrado (Some configuracao) abrir
    = Some (IndexadorES.arquivo_escrita c, mc)
    /\ executar log10 quadrado (cab :: linhas) = Some mc.
Proof.
  intros Hc Ha Hv Hne.
  destruct (executar_salva log10 quadrado cab Hv Hne) as [mc Hmc].
  exists mc. split; [|exact Hmc].
  unfold IndexadorES.executar. rewrite Hc, Ha, Hmc. reflexivity.
Qed.

Lemma X6_execucao_salva_no_caminho_witness :
  IndexadorES._ler_config ["LEIA=li.csv"%string; "ESCREVA=m.pkl"%string]
  = Ok {| IndexadorES.arquivo_leitura := "li.csv";
          IndexadorES.arquivo_escrita := "m.pkl" |}
  /\ (fun p : string =>
        if String.eqb p "li.csv" then Some (cabecalho :: linhas_exemplo)
        else None) "li.csv"%string
     = Some (cabecalho :: linhas_exemplo)
  /\ forallb linha_valida linhas_exemplo = true
  /\ linhas_exemplo <> []
  /\ exists mc,
       IndexadorES.executar log10_exemplos quadrado_exemplos
         (Some ["LEIA=li.csv"%string; "ESCREVA=m.pkl"%string])
         (fun p : string =>
            if String.eqb p "li.csv" then Some (cabecalho :: linhas_exemplo)
            else None)
       = Some ("m.pkl"%string, mc)
       /\ executar log10_exemplos quadrado_exemplos
            (cabecalho :: linhas_exemplo) = Some mc.
Proof.
  assert (H1 : IndexadorES._ler_config
                 ["LEIA=li.csv"%string; "ESCREVA=m.pkl"%string]
               = Ok {| IndexadorES.arquivo_leitura := "li.csv";
                       IndexadorES.arquivo_escrita := "m.pkl" |})
    by reflexivity.
  assert (H4 : linhas_exemplo <> []) by discriminate.
  split; [exact H1|]. split; [reflexivity|]. split; [reflexivity|].
  split; [exact H4|].
  exact (@X6_execucao_salva_no_caminho log10_exemplos quadrado_exemplos
           ["LEIA=li.csv"%string; "ESCREVA=m.pkl"%string] _
           (fun p : string =>
              if String.eqb p "li.csv"
              then Some (cabecalho :: linhas_exemplo) else None)
           cabecalho linhas_exemplo H1 eq_refl eq_refl H4).
Defined.

End IndexadorExtras.

(* ================================================================= *)
(** ** More about the Buscador *)

Lemma SFcompare_Eq_trans (a b c : SpecFloat.spec_float) :
  SFcompare a c = Some Eq -> SFcompare b c = Some Eq ->
  SFcompare a b = Some Eq.
Proof.
  destruct a as [sa|sa| |sa ma ea], b as [sb|sb| |sb mb eb],
    c as [sc|sc| |sc mc ec]; simpl;
    try discriminate; try reflexivity;
    try (destruct sa; discriminate); try (destruct sb; discriminate);
    try (destruct sc; discriminate);
    try (destruct sa, sb, sc; simpl; intros; congruence).
  destruct sa, sb, sc; simpl; try discriminate;
    destruct (Z.compare_spec ea ec) as [Ea|Ea|Ea]; try discriminate;
    destruct (Z.compare_spec eb ec) as [Eb|Eb|Eb]; try discriminate;
    fold (Pos.compare ma mc); fold (Pos.compare mb mc);
    fold (Pos.compare ma mb);
    destruct (Pos.compare_spec ma mc) as [Ma|Ma|Ma]; try discriminate;
    destruct (Pos.compare_spec mb mc) as [Mb|Mb|Mb]; try discriminate;
    intros _ _; subst; rewrite Z.compare_refl, Pos.compare_refl; reflexivity.
Qed.

(** Two numbers equal to a third one are not one below the other. *)
Lemma eqb_nao_ltb (x y s : float) :
  (x =? s) = true -> (y =? s) = true -> (x <? y) = false.
Proof.
  rewrite !eqb_spec, ltb_spec. unfold SFeqb, SFltb. intros Hx Hy.
  destruct (SFcompare (Prim2SF x) (Prim2SF s)) as [[| |]|] eqn:Ex;
    try discriminate.
  destruct (SFcompare (Prim2SF y) (Prim2SF s)) as [[| |]|] eqn:Ey;
    try discriminate.
  rewrite (SFcompare_Eq_trans _ _ _ Ex Ey). reflexivity.
Qed.

Module BuscadorExtras.
Import Buscador BuscadorProps.

(** *** What a run stores for each query number *)

Lemma resultado_de_cada_numero
  (m : PyDict.dict string (PyDict.dict Z float)) (n : PyDict.dict Z float)
  (cs : PyDict.dict Z string) (q : Z) :
  NoDup (PyDict.keys cs) ->
  PyDict.get Z.eq_dec
    (resultados_finais (_realizar_buscas (carregado m n cs))) q
  = match PyDict.get Z.eq_dec cs q with
    | Some text =>
        if norma_da_consulta (split text) =? 0 then None
        else Some (ranking m n text)
    | None => None
    end.
Proof.
  intros Hnd. unfold _realizar_buscas. simpl consultas.
  destruct (PyDict.get Z.eq_dec cs q) as [text|] eqn:E.
  - apply get_Some_In in E.
    rewrite (resultado_da_consulta cs (carregado m n cs) q text Hnd E).
    reflexivity.
  - apply get_None_keys in E.
    rewrite buscas_outra_consulta by exact E. reflexivity.
Qed.

(** X7: after the scoring phase a query number has an entry in the
    results exactly when a query with that number was loaded and its
    text passes the guard of the empty queries, and the entry is the
    ranking of that text: no other query has any influence on it. *)
Theorem X7_entrada_por_consulta
  (m : PyDict.dict string (PyDict.dict Z float)) (n : PyDict.dict Z float)
  (cs : PyDict.dict Z string) (q : Z) (r : list terno) :
  NoDup (PyDict.keys cs) ->
  (PyDict.get Z.eq_dec
     (resultados_finais (_realizar_buscas (carregado m n cs))) q = Some r
   <-> exists text,
         PyDict.get Z.eq_dec cs q = Some text
         /\ (norma_da_consulta (split text) =? 0) = false
         /\ r = ranking m n text).
Proof.
  intros Hnd. rewrite resultado_de_cada_numero by exact Hnd.
  destruct (PyDict.get Z.eq_dec cs q) as [text|].
  - destruct (norma_da_consulta (split text) =? 0) eqn:G; split.
    + discriminate.
    + intros [t [E [G' _]]]. inversion E; subst. congruence.
    + intros E. inversion E; subst. exists text. auto.
    + intros [t [E [_ Hr]]]. inversion E; subst. reflexivity.
  - split; [discriminate | intros [t [E _]]; discriminate].
Qed.

Lemma X7_entrada_por_consulta_witness :
  NoDup (PyDict.keys consultas_exemplo)
  /\ (PyDict.get Z.eq_dec
        (resultados_finais
           (_realizar_buscas
              (carregado modelo_exemplo normas_exemplo consultas_exemplo)))
        1%Z = Some [(1%nat, 2%Z, 1)]
      <-> exists text,
            PyDict.get Z.eq_dec consultas_exemplo 1%Z = Some text
            /\ (norma_da_consulta (split text) =? 0) = false
            /\ [(1%nat, 2%Z, 1)] = ranking modelo_exemplo normas_exemplo text).
Proof.
  assert (Hnd : NoDup (PyDict.keys consultas_exemplo)).
  { simpl. repeat constructor; simpl; intuition discriminate. }
  split; [exact Hnd|].
  exact (@X7_entrada_por_consulta modelo_exemplo normas_exemplo
           consultas_exemplo 1%Z [(1%nat, 2%Z, 1)] Hnd).
Defined.

(** X8: a query that passes the guard but none of whose terms is in the
    weight table is not skipped: its number gets an entry, the empty
    list. *)
Theorem X8_nenhum_termo_no_modelo
  (m : PyDict.dict string (PyDict.dict Z float)) (n : PyDict.dict Z float)
  (cs : PyDict.dict Z string) (q : Z) (text : string) :
  NoDup (PyDict.keys cs) -> In (q, text) cs ->
  (norma_da_consulta (split text) =? 0) = false ->
  (forall t, In t (split text) -> PyDict.get string_dec m t = None) ->
  PyDict.get Z.eq_dec
    (resultados_finais (_realizar_buscas (carregado m n cs))) q = Some [].
Proof.
  intros Hnd I Hg Hm. rewrite (resultado_do_ranking m n cs q text Hnd I Hg).
  f_equal. unfold ranking.
  assert (Hp : produto_escalar m (split text) = []).
  { unfold produto_escalar. generalize (split text) Hm.
    intros termos. induction termos as [|t termos IH]; intros Ht;
      cbn [fold_left]; [reflexivity|].
    rewrite somar_termo_eq, (Ht t (or_introl eq_refl)).
    apply IH. intros t' I'. apply Ht. now right. }
  rewrite Hp. reflexivity.
Qed.

Lemma X8_nenhum_termo_no_modelo_witness :
  NoDup (PyDict.keys [(5%Z, "bird fish"%string)])
  /\ In (5%Z, "bird fish"%string) [(5%Z, "bird fish"%string)]
  /\ (norma_da_consulta (split "bird fish") =? 0) = false
  /\ (forall t, In t (split "bird fish") ->
                PyDict.get string_dec modelo_exemplo t = None)
  /\ PyDict.get Z.eq_dec
       (resultados_finais
          (_realizar_buscas
             (carregado modelo_exemplo normas_exemplo
                [(5%Z, "bird fish"%string)])))
       5%Z = Some [].
Proof.
  assert (Hnd : NoDup (PyDict.keys [(5%Z, "bird fish"%string)])).
  { simpl. repeat constructor; simpl; tauto. }
  assert (Hin : In (5%Z, "bird fish"%string) [(5%Z, "bird fish"%string)])
    by (simpl; tauto).
  assert (Hg : (norma_da_consulta (split "bird fish") =? 0) = false)
    by (vm_compute; reflexivity).
  assert (Hm : forall t, In t (split "bird fish") ->
                         PyDict.get string_dec modelo_exemplo t = None).
  { intros t [E|[E|[]]]; subst t; reflexivity. }
  repeat (split; [assumption|]).
  exact (@X8_nenhum_termo_no_modelo modelo_exemplo normas_exemplo
           [(5%Z, "bird fish"%string)] 5%Z "bird fish"%string
           Hnd Hin Hg Hm).
Defined.

(** *** The score of a document *)

(** X9: a document with a stored norm greater than 0 is ranked with the
    cosine: its accumulated score divided by the product of its norm
    and the norm of the query. *)
Theorem X9_cosseno_com_norma_positiva
  (m : PyDict.dict string (PyDict.dict Z float)) (n : PyDict.dict Z float)
  (cs : PyDict.dict Z string) (q : Z) (text : string)
  (d : Z) (norma_doc bruto : float) :
  NoDup (PyDict.keys cs) -> In (q, text) cs ->
  (norma_da_consulta (split text) =? 0) = false ->
  PyDict.get Z.eq_dec n d = Some norma_doc ->
  (0 <? norma_doc) = true ->
  PyDict.get Z.eq_dec (produto_escalar m (split text)) d = Some bruto ->
  exists pos resultado,
    PyDict.get Z.eq_dec
      (resultados_finais (_realizar_buscas (carregado m n cs))) q
    = Some resultado
    /\ In (pos, d, bruto / (norma_doc * norma_da_consulta (split text)))
         resultado.
Proof.
  intros Hnd I Hg Hn Hpos Hb.
  destruct (ranking_In m n text d Hb) as [pos Hin].
  exists pos, (ranking m n text).
  split; [apply resultado_do_ranking; assumption|].
  unfold normalizar, PyDict.get_default in Hin.
  rewrite Hn, Hpos in Hin. exact Hin.
Qed.

Lemma X9_cosseno_com_norma_positiva_witness :
  NoDup (PyDict.keys consultas_exemplo)
  /\ In (3%Z, "cat dog"%string) consultas_exemplo
  /\ (norma_da_consulta (split "cat dog") =? 0) = false
  /\ PyDict.get Z.eq_dec normas_exemplo 2%Z = Some 0x1.34413509f79ffp-2
  /\ (0 <? 0x1.34413509f79ffp-2) = true
  /\ PyDict.get Z.eq_dec (produto_escalar modelo_exemplo (split "cat dog")) 2%Z
     = Some 0x1.34413509f79ffp-2
  /\ exists pos resultado,
       PyDict.get Z.eq_dec
         (resultados_finais
            (_realizar_buscas
               (carregado modelo_exemplo normas_exemplo consultas_exemplo)))
         3%Z
       = Some resultado
       /\ In (pos, 2%Z,
              0x1.34413509f79ffp-2
              / (0x1.34413509f79ffp-2 * norma_da_consulta (split "cat dog")))
            resultado.
Proof.
  assert (Hnd : NoDup (PyDict.keys consultas_exemplo)).
  { simpl. repeat constructor; simpl; intuition discriminate. }
  assert (Hin : In (3%Z, "cat dog"%string) consultas_exemplo)
    by (simpl; tauto).
  assert (Hg : (norma_da_consulta (split "cat dog") =? 0) = false)
    by (vm_compute; reflexivity).
  assert (Hn : PyDict.get Z.eq_dec normas_exemplo 2%Z
               = Some 0x1.34413509f79ffp-2) by reflexivity.
  assert (Hp : (0 <? 0x1.34413509f79ffp-2) = true) by reflexivity.
  assert (Hb : PyDict.get Z.eq_dec
                 (produto_escalar modelo_exemplo (split "cat dog")) 2%Z
               = Some 0x1.34413509f79ffp-2) by (vm_compute; reflexivity).
  repeat (split; [assumption|]).
  exact (@X9_cosseno_com_norma_positiva modelo_exemplo normas_exemplo
           consultas_exemplo 3%Z "cat dog"%string 2%Z _ _
           Hnd Hin Hg Hn Hp Hb).
Defined.

Lemma formatar_documentos (l : list (Z * float)) (i : nat) :
  map documento (formatar i l) = map fst l.
Proof.
  revert i. induction l as [|[d s] l IH]; intros i; simpl; [reflexivity|].
  unfold documento at 1. simpl. f_equal. apply IH.
Qed.

Lemma ranking_documentos (m : PyDict.dict string (PyDict.dict Z float))
  (n : PyDict.dict Z float) (text : string) :
  Permutation (map documento (ranking m n text))
    (PyDict.keys (produto_escalar m (split text))).
Proof.
  unfold ranking. rewrite formatar_documentos.
  eapply Permutation_trans.
  - apply Permutation_map. apply sorted_reverse_perm.
  - rewrite pontuar_map by apply produto_escalar_NoDup.
    rewrite map_map. simpl. apply Permutation_refl.
Qed.

(** X10: the ranking of a query lists every document that a term of
    the query references in the weight table, each of them once, and
    no other document. *)
Theorem X10_cada_documento_uma_vez
  (m : PyDict.dict string (PyDict.dict Z float)) (n : PyDict.dict Z float)
  (cs : PyDict.dict Z string) (q : Z) (text : string) :
  NoDup (PyDict.keys cs) -> In (q, text) cs ->
  (norma_da_consulta (split text) =? 0) = false ->
  exists resultado,
    PyDict.get Z.eq_dec
      (resultados_finais (_realizar_buscas (carregado m n cs))) q
    = Some resultado
    /\ NoDup (map documento resultado)
    /\ forall d,
         In d (map documento resultado)
         <-> exists t pesos,
               In t (split text)
               /\ PyDict.get string_dec m t = Some pesos
               /\ In d (PyDict.keys pesos).
Proof.
  intros Hnd I Hg. exists (ranking m n text).
  split; [apply resultado_do_ranking; assumption|].
  pose proof (ranking_documentos m n text) as Hp. split.
  - apply (Permutation_NoDup (Permutation_sym Hp)).
    apply produto_escalar_NoDup.
  - intros d. rewrite <- produto_escalar_keys. split; intros H.
    + apply (Permutation_in _ Hp). exact H.
    + apply (Permutation_in _ (Permutation_sym Hp)). exact H.
Qed.

Lemma X10_cada_documento_uma_vez_witness :
  NoDup (PyDict.keys consultas_exemplo)
  /\ In (3%Z, "cat dog"%string) consultas_exemplo
  /\ (norma_da_consulta (split "cat dog") =? 0) = false
  /\ exists resultado,
       PyDict.get Z.eq_dec
         (resultados_finais
            (_realizar_buscas
               (carregado modelo_exemplo normas_exemplo consultas_exemplo)))
         3%Z
       = Some resultado
       /\ NoDup (map documento resultado)
       /\ forall d,
            In d (map documento resultado)
            <-> exists t pesos,
                  In t (split "cat dog")
                  /\ PyDict.get string_dec modelo_exemplo t = Some pesos
                  /\ In d (PyDict.keys pesos).
Proof.
  assert (Hnd : NoDup (PyDict.keys consultas_exemplo)).
  { simpl. repeat constructor; simpl; intuition discriminate. }
  assert (Hin : In (3%Z, "cat dog"%string) consultas_exemplo)
    by (simpl; tauto).
  assert (Hg : (norma_da_consulta (split "cat dog") =? 0) = false)
    by (vm_compute; reflexivity).
  repeat (split; [assumption|]).
  exact (@X10_cada_documento_uma_vez modelo_exemplo normas_exemplo
           consultas_exemplo 3%Z "cat dog"%string Hnd Hin Hg).
Defined.

(** *** The accumulated score *)

Lemma somar_pesos_get (pesos scores_docs : PyDict.dict Z float) (d : Z) :
  NoDup (PyDict.keys pesos) ->
  PyDict.get_default Z.eq_dec (somar_pesos scores_docs pesos) d 0
  = match PyDict.get Z.eq_dec pesos d with
    | Some peso => PyDict.get_default Z.eq_dec scores_docs d 0 + peso * 1
    | None => PyDict.get_default Z.eq_dec scores_docs d 0
    end.
Proof.
  unfold somar_pesos. revert scores_docs.
  induction pesos as [|[doc peso] pesos IH]; intros scores_docs Hnd;
    simpl; [reflexivity|].
  inversion Hnd as [|? ? Hn Hnd']; subst. rewrite IH by exact Hnd'.
  destruct (Z.eq_dec d doc) as [E|Ne].
  - subst d. rewrite (proj2 (get_None_keys Z.eq_dec pesos doc) Hn).
    unfold PyDict.get_default at 1. rewrite get_set_eq. reflexivity.
  - assert (Hg : PyDict.get_default Z.eq_dec
                   (PyDict.set Z.eq_dec scores_docs doc
                      (PyDict.get_default Z.eq_dec scores_docs doc 0
                       + peso * 1)) d 0
                 = PyDict.get_default Z.eq_dec scores_docs d 0).
    { unfold PyDict.get_default at 1.
      rewrite get_set_neq by congruence. reflexivity. }
    rewrite Hg. reflexivity.
Qed.

Lemma produto_escalar_get_desde
  (m : PyDict.dict string (PyDict.dict Z float)) (termos : list string)
  (scores_docs : PyDict.dict Z float) (d : Z) :
  (forall t pesos,
      PyDict.get string_dec m t = Some pesos -> NoDup (PyDict.keys pesos)) ->
  PyDict.get_default Z.eq_dec
    (snd (fold_left somar_termo termos (m, scores_docs))) d 0
  = fold_left (fun soma peso => soma + peso * 1)
      (BuscadorES.pesos_na_consulta m termos d)
      (PyDict.get_default Z.eq_dec scores_docs d 0).
Proof.
  intros Hm. revert scores_docs.
  induction termos as [|t termos IH]; intros scores_docs;
    cbn [fold_left BuscadorES.pesos_na_consulta flat_map]; [reflexivity|].
  rewrite somar_termo_eq, fold_left_app.
  fold (BuscadorES.pesos_na_consulta m termos d).
  destruct (PyDict.get string_dec m t) as [pesos|] eqn:E.
  - rewrite IH, (somar_pesos_get pesos scores_docs d (Hm t pesos E)).
    destruct (PyDict.get Z.eq_dec pesos d); reflexivity.
  - rewrite IH. reflexivity.
Qed.

(** X11: the score that a query accumulates for a document is the sum,
    started at 0 and taken term by term in the order of the query, of
    the weights that the terms have for the document, each weight
    times 1; a term written twice in the query adds its weight twice. *)
Theorem X11_produto_escalar
  (m : PyDict.dict string (PyDict.dict Z float))
  (termos : list string) (d : Z) :
  (forall t pesos,
      PyDict.get string_dec m t = Some pesos -> NoDup (PyDict.keys pesos)) ->
  In d (PyDict.keys (produto_escalar m termos)) ->
  PyDict.get Z.eq_dec (produto_escalar m termos) d
  = Some (fold_left (fun soma peso => soma + peso * 1)
            (BuscadorES.pesos_na_consulta m termos d) 0).
Proof.
  intros Hm Hd.
  apply get_Some_keys with (dec := Z.eq_dec) in Hd. destruct Hd as [v Hv].
  pose proof (produto_escalar_get_desde m termos [] d Hm) as H.
  change (snd (fold_left somar_termo termos (m, [])))
    with (produto_escalar m termos) in H.
  unfold PyDict.get_default in H at 1. rewrite Hv in H. simpl in H.
  rewrite Hv. f_equal. exact H.
Qed.

Lemma X11_produto_escalar_witness :
  (forall t pesos,
      PyDict.get string_dec modelo_exemplo t = Some pesos ->
      NoDup (PyDict.keys pesos))
  /\ In 2%Z (PyDict.keys (produto_escalar modelo_exemplo ["dog"; "cat"; "dog"]%string))
  /\ PyDict.get Z.eq_dec
       (produto_escalar modelo_exemplo ["dog"; "cat"; "dog"]%string) 2%Z
     = Some (fold_left (fun soma peso => soma + peso * 1)
               (BuscadorES.pesos_na_consulta modelo_exemplo
                  ["dog"; "cat"; "dog"]%string 2%Z) 0).
Proof.
  assert (Hm : forall t pesos,
             PyDict.get string_dec modelo_exemplo t = Some pesos ->
             NoDup (PyDict.keys pesos)).
  { intros t pesos. unfold modelo_exemplo. simpl.
    destruct (string_dec t "cat"); [intros E; inversion E; subst|].
    - simpl. repeat constructor; simpl; intuition discriminate.
    - destruct (string_dec t "dog"); [intros E; inversion E; subst
                                     | discriminate].
      simpl. repeat constructor; simpl; tauto. }
  assert (Hd : In 2%Z (PyDict.keys
                         (produto_escalar modelo_exemplo
                            ["dog"; "cat"; "dog"]%string)))
    by (vm_compute; tauto).
  split; [exact Hm|]. split; [exact Hd|].
  exact (@X11_produto_escalar modelo_exemplo ["dog"; "cat"; "dog"]%string
           2%Z Hm Hd).
Defined.

(** *** Ties *)

Lemma inserir_filtro (s : float) (x : Z * float) (l : list (Z * float)) :
  filter (fun y => snd y =? s) (inserir x l)
  = filter (fun y => snd y =? s) (x :: l).
Proof.
  induction l as [|y l IH]; [reflexivity|].
  cbn [inserir]. destruct (snd x <? snd y) eqn:E; [|reflexivity].
  cbn [filter] in *. rewrite IH.
  destruct (snd x =? s) eqn:Ex; destruct (snd y =? s) eqn:Ey;
    try reflexivity.
  rewrite (eqb_nao_ltb Ex Ey) in E. discriminate.
Qed.

Lemma sorted_reverse_filtro (s : float) (l : list (Z * float)) :
  filter (fun y => snd y =? s) (sorted_reverse l)
  = filter (fun y => snd y =? s) l.
Proof.
  induction l as [|x l IH]; [reflexivity|].
  cbn [sorted_reverse fold_right]. fold (sorted_reverse l).
  rewrite inserir_filtro. cbn [filter]. rewrite IH. reflexivity.
Qed.

Lemma formatar_filtro (s : float) (l : list (Z * float)) (i : nat) :
  map documento (filter (fun t => pontuacao t =? s) (formatar i l))
  = map fst (filter (fun y => snd y =? s) l).
Proof.
  revert i. induction l as [|[d v] l IH]; intros i; [reflexivity|].
  cbn [formatar filter]. unfold pontuacao at 1. cbn [snd].
  destruct (v =? s); cbn [map]; rewrite IH; reflexivity.
Qed.

(** X12: in a ranking whose scores are numbers, the documents that have
    the same score follow each other in the order in which the
    accumulation first reached them, which is the order of the scores
    before the sort. *)
Theorem X12_empates_na_ordem_da_acumulacao
  (m : PyDict.dict string (PyDict.dict Z float)) (n : PyDict.dict Z float)
  (cs : PyDict.dict Z string) (q : Z) (text : string) :
  NoDup (PyDict.keys cs) -> In (q, text) cs ->
  (norma_da_consulta (split text) =? 0) = false ->
  Forall (fun t => nao_e_nan (pontuacao t)) (ranking m n text) ->
  exists resultado,
    PyDict.get Z.eq_dec
      (resultados_finais (_realizar_buscas (carregado m n cs))) q
    = Some resultado
    /\ forall s,
         map documento (filter (fun t => pontuacao t =? s) resultado)
         = map fst
             (filter (fun y => snd y =? s)
                (pontuar n (norma_da_consulta (split text))
                   (produto_escalar m (split text)))).
Proof.
  intros Hnd I Hg _. exists (ranking m n text).
  split; [apply resultado_do_ranking; assumption|].
  intros s. unfold ranking.
  rewrite formatar_filtro, sorted_reverse_filtro. reflexivity.
Qed.

Lemma X12_empates_na_ordem_da_acumulacao_witness :
  NoDup (PyDict.keys consultas_empate)
  /\ In (8%Z, "A"%string) consultas_empate
  /\ (norma_da_consulta (split "A") =? 0) = false
  /\ Forall (fun t => nao_e_nan (pontuacao t))
       (ranking modelo_avulso normas_avulsas "A")
  /\ exists resultado,
       PyDict.get Z.eq_dec
         (resultados_finais
            (_realizar_buscas
               (carregado modelo_avulso normas_avulsas consultas_empate)))
         8%Z
       = Some resultado
       /\ forall s,
            map documento (filter (fun t => pontuacao t =? s) resultado)
            = map fst
                (filter (fun y => snd y =? s)
                   (pontuar normas_avulsas (norma_da_consulta (split "A"))
                      (produto_escalar modelo_avulso (split "A")))).
Proof.
  assert (Hnd : NoDup (PyDict.keys consultas_empate)).
  { simpl. repeat constructor; simpl; intuition discriminate. }
  assert (Hin : In (8%Z, "A"%string) consultas_empate)
    by (simpl; tauto).
  assert (Hg : (norma_da_consulta (split "A") =? 0) = false)
    by (vm_compute; reflexivity).
  assert (Hnan : Forall (fun t => nao_e_nan (pontuacao t))
                   (ranking modelo_avulso normas_avulsas "A")).
  { vm_compute. repeat constructor. }
  repeat (split; [assumption|]).
  exact (@X12_empates_na_ordem_da_acumulacao modelo_avulso normas_avulsas
           consultas_empate 8%Z "A"%string Hnd Hin Hg Hnan).
Defined.

(** *** The terms of a query *)

Lemma sem_espaco_app (a b : string) :
  Texto.sem_espaco (a ++ b) = Texto.sem_espaco a && Texto.sem_espaco b.
Proof.
  induction a as [|c a IH]; simpl; [reflexivity|].
  rewrite IH. apply andb_assoc.
Qed.

Lemma split_desde_termos (texto atual : string) (termo : string) :
  Texto.sem_espaco atual = true ->
  In termo (split_desde texto atual) ->
  termo <> EmptyString /\ Texto.sem_espaco termo = true.
Proof.
  revert atual. induction texto as [|c resto IH]; intros atual Ha; simpl.
  - destruct atual as [|a0 atual']; [intros []|].
    intros [E|[]]. subst termo. split; [discriminate | exact Ha].
  - destruct (isspace c) eqn:Ec.
    + destruct atual as [|a0 atual'].
      * apply IH. reflexivity.
      * intros [E|I].
        -- subst termo. split; [discriminate | exact Ha].
        -- apply (IH EmptyString); [reflexivity | exact I].
    + apply IH. rewrite sem_espaco_app, Ha. simpl. rewrite Ec. reflexivity.
Qed.






(** *** Loading the queries *)

Lemma carregar_consultas_NoDup (linhas : list BuscadorES.linha_consulta)
  (cs cs' : PyDict.dict Z string) :
  para_cada BuscadorES.carregar_consulta linhas cs = Ok cs' ->
  NoDup (PyDict.keys cs) -> NoDup (PyDict.keys cs').
Proof.
  revert cs. induction linhas as [|l linhas IH]; intros cs; simpl.
  - intros E. inversion E; subst. auto.
  - destruct l as [qn qt|]; simpl; [|discriminate].
    intros E Hnd. apply (IH _ E). apply NoDup_keys_set. exact Hnd.
Qed.

Lemma carregar_consultas_outro_numero
  (linhas : list BuscadorES.linha_consulta)
  (cs cs' : PyDict.dict Z string) (q : Z) :
  para_cada BuscadorES.carregar_consulta linhas cs = Ok cs' ->
  (forall outro, ~ In (BuscadorES.Consulta q outro) linhas) ->
  PyDict.get Z.eq_dec cs' q = PyDict.get Z.eq_dec cs q.
Proof.
  revert cs. induction linhas as [|l linhas IH]; intros cs; simpl.
  - intros E _. inversion E; subst. reflexivity.
  - destruct l as [qn qt|]; simpl; [|discriminate].
    intros E Hn. rewrite (IH _ E).
    + apply get_set_neq. intros Eq. subst qn. apply (Hn qt). now left.
    + intros o I. apply (Hn o). now right.
Qed.

(** X15: the query dictionary that [_carregar_consultas] builds has no
    repeated number, and when a number has several records the text of
    the last one is kept. *)
Theorem X15_ultima_consulta_do_numero (cab : BuscadorES.linha_consulta)
  (pre pos : list BuscadorES.linha_consulta) (q : Z) (text : string)
  (cs : PyDict.dict Z string) :
  BuscadorES._carregar_consultas
    (cab :: pre ++ BuscadorES.Consulta q text :: pos) = Ok cs ->
  (forall outro, ~ In (BuscadorES.Consulta q outro) pos) ->
  NoDup (PyDict.keys cs) /\ PyDict.get Z.eq_dec cs q = Some text.
Proof.
  cbn [BuscadorES._carregar_consultas]. intros E Hpos. split.
  - apply (carregar_consultas_NoDup _ _ E). constructor.
  - rewrite para_cada_app in E.
    destruct (para_cada BuscadorES.carregar_consulta pre []) as [c0|e];
      [|discriminate].
    cbn [bind para_cada BuscadorES.carregar_consulta] in E.
    rewrite (carregar_consultas_outro_numero pos _ q E Hpos).
    apply get_set_eq.
Qed.

Lemma X15_ultima_consulta_do_numero_witness :
  BuscadorES._carregar_consultas
    (BuscadorES.ConsultaInvalida
     :: [BuscadorES.Consulta 1 "CAT"] ++ BuscadorES.Consulta 1 "DOG"
     :: [BuscadorES.Consulta 2 "CAT DOG"])
  = Ok [(1%Z, "DOG"%string); (2%Z, "CAT DOG"%string)]
  /\ (forall outro,
         ~ In (BuscadorES.Consulta 1 outro) [BuscadorES.Consulta 2 "CAT DOG"])
  /\ NoDup (PyDict.keys [(1%Z, "DOG"%string); (2%Z, "CAT DOG"%string)])
  /\ PyDict.get Z.eq_dec [(1%Z, "DOG"%string); (2%Z, "CAT DOG"%string)] 1%Z
     = Some "DOG"%string.
Proof.
  assert (E : BuscadorES._carregar_consultas
                (BuscadorES.ConsultaInvalida
                 :: [BuscadorES.Consulta 1 "CAT"]
                    ++ BuscadorES.Consulta 1 "DOG"
                 :: [BuscadorES.Consulta 2 "CAT DOG"])
              = Ok [(1%Z, "DOG"%string); (2%Z, "CAT DOG"%string)])
    by reflexivity.
  assert (H : forall outro,
             ~ In (BuscadorES.Consulta 1 outro)
                 [BuscadorES.Consulta 2 "CAT DOG"]).
  { intros outro [C|[]]. discriminate. }
  split; [exact E|]. split; [exact H|].
  exact (@X15_ultima_consulta_do_numero BuscadorES.ConsultaInvalida
           [BuscadorES.Consulta 1 "CAT"] [BuscadorES.Consulta 2 "CAT DOG"]
           1%Z "DOG"%string _ E H).
Defined.

Lemma carregar_consulta_invalida (linhas : list BuscadorES.linha_consulta)
  (cs : PyDict.dict Z string) :
  In BuscadorES.ConsultaInvalida linhas ->
  para_cada BuscadorES.carregar_consulta linhas cs = Erro ValueError.
Proof.
  revert cs. induction linhas as [|l linhas IH]; intros cs; [intros []|].
  intros [E|I]; cbn [para_cada].
  - subst l. reflexivity.
  - destruct l as [qn qt|]; [|reflexivity].
    cbn [BuscadorES.carregar_consulta bind]. apply IH. exact I.
Qed.

(** X16: a record of the query file that cannot be unpacked, or whose
    number is not an integer, makes [_carregar_consultas] raise
    [ValueError], and the run then writes no result file. *)
Theorem X16_consulta_invalida_aborta (configuracao : list string)
  (c : BuscadorES.config)
  (abrir_modelo : string -> option Indexador.modelo_completo)
  (abrir_consultas : string -> option (list BuscadorES.linha_consulta))
  (cab : BuscadorES.linha_consulta)
  (linhas : list BuscadorES.linha_consulta) :
  BuscadorES._ler_config configuracao = Ok c ->
  abrir_consultas (BuscadorES.arquivo_consultas c) = Some (cab :: linhas) ->
  In BuscadorES.ConsultaInvalida linhas ->
  BuscadorES._carregar_consultas (cab :: linhas) = Erro ValueError
  /\ BuscadorES.executar (Some configuracao) abrir_modelo abrir_consultas
     = None.
Proof.
  intros Hc Ha I.
  assert (E : BuscadorES._carregar_consultas (cab :: linhas)
              = Erro ValueError)
    by (apply carregar_consulta_invalida; exact I).
  split; [exact E|].
  unfold BuscadorES.executar. rewrite Hc.
  destruct (abrir_modelo (BuscadorES.arquivo_modelo c)); [|reflexivity].
  rewrite Ha, E. reflexivity.
Qed.

Lemma X16_consulta_invalida_aborta_witness :
  BuscadorES._ler_config BuscadorES.configuracao_exemplo
  = Ok {| BuscadorES.arquivo_modelo := "m.pkl";
          BuscadorES.arquivo_consultas := "c.csv";
          BuscadorES.arquivo_resultados := "r.csv" |}
  /\ BuscadorES.abrir_consultas_corrompidas "c.csv"
     = Some (BuscadorES.ConsultaInvalida
             :: [BuscadorES.Consulta 1 "dog"; BuscadorES.ConsultaInvalida])
  /\ In BuscadorES.ConsultaInvalida
       [BuscadorES.Consulta 1 "dog"; BuscadorES.ConsultaInvalida]
  /\ BuscadorES._carregar_consultas
       (BuscadorES.ConsultaInvalida
        :: [BuscadorES.Consulta 1 "dog"; BuscadorES.ConsultaInvalida])
     = Erro ValueError
  /\ BuscadorES.executar (Some BuscadorES.configuracao_exemplo)
       BuscadorES.abrir_modelo_exemplo BuscadorES.abrir_consultas_corrompidas
     = None.
Proof.
  assert (H1 : BuscadorES._ler_config BuscadorES.configuracao_exemplo
               = Ok {| BuscadorES.arquivo_modelo := "m.pkl";
                       BuscadorES.arquivo_consultas := "c.csv";
                       BuscadorES.arquivo_resultados := "r.csv" |})
    by reflexivity.
  assert (H3 : In BuscadorES.ConsultaInvalida
                 [BuscadorES.Consulta 1 "dog"; BuscadorES.ConsultaInvalida])
    by (simpl; tauto).
  split; [exact H1|]. split; [reflexivity|]. split; [exact H3|].
  exact (@X16_consulta_invalida_aborta BuscadorES.configuracao_exemplo _
           BuscadorES.abrir_modelo_exemplo
           BuscadorES.abrir_consultas_corrompidas
           BuscadorES.ConsultaInvalida
           [BuscadorES.Consulta 1 "dog"; BuscadorES.ConsultaInvalida]
           H1 eq_refl H3).
Defined.

(** *** Writing the results *)







(** *** The whole run of the Buscador *)




(** The records of the example run, as they are written. *)
Example execucao_exemplo :
  BuscadorES.executar (Some BuscadorES.configuracao_exemplo)
    BuscadorES.abrir_modelo_exemplo BuscadorES.abrir_consultas_exemplo
  = Some ("r.csv"%string,
          [(1%Z, [(1%nat, 2%Z, 1)]);
           (3%Z, [(1%nat, 2%Z,
                   0x1.34413509f79ffp-2
                   / (0x1.34413509f79ffp-2 * math_sqrt 2));
                  (2%nat, 1%Z, 0)])]).
Proof. vm_compute. reflexivity. Qed.

(** *** The configuration of the Buscador *)




(** *** A model saved by the Indexador *)

(** X20: against a model that the Indexador saved from records that
    are terms with non-empty sequences, every document for which a
    query accumulates a score has a stored norm, so the default norm
    of 1 is never used. *)
Theorem X20_norma_sempre_armazenada (log10 quadrado : float -> float)
  (cab : Indexador.linha) (linhas : list Indexador.linha)
  (mc : Indexador.modelo_completo) (termos : list string) (d : Z) :
  forallb Indexador.linha_valida linhas = true ->
  Indexador.executar log10 quadrado (cab :: linhas) = Some mc ->
  In d (PyDict.keys (produto_escalar (Indexador.modelo_tfidf mc) termos)) ->
  exists norma_doc,
    PyDict.get Z.eq_dec (Indexador.normas mc) d = Some norma_doc.
Proof.
  intros Hv He Hd.
  destruct (IndexadorProps.pipeline log10 quadrado cab linhas Hv)
    as [s1 [s2 [Hs1 [Hs2 [Hnd [_ [_ [Hmod Hnor]]]]]]]].
  unfold Indexador.executar in He. rewrite Hs1 in He. cbn [bind] in He.
  rewrite Hs2 in He. unfold Indexador._salvar_modelo in He.
  assert (Hmc : mc = {| Indexador.modelo_tfidf := Indexador.modelo s2;
                        Indexador.normas := Indexador.normas_documentos s2 |}).
  { destruct (Indexador.modelo s2); [discriminate|].
    inversion He. reflexivity. }
  subst mc. clear He. simpl in Hd |- *.
  apply produto_escalar_keys in Hd. destruct Hd as [t [pesos [_ [G K]]]].
  apply get_Some_keys with (dec := Z.eq_dec).
  rewrite Hnor.
  apply (IndexadorExtras.chaves_das_normas quadrado (Indexador.modelo s2) d).
  - rewrite Hmod. apply IndexadorExtras.modelo_chaves_NoDup. exact Hnd.
  - exists t, pesos. auto.
Qed.

Lemma X20_norma_sempre_armazenada_witness :
  forallb Indexador.linha_valida Indexador.linhas_exemplo = true
  /\ Indexador.executar Indexador.log10_exemplos Indexador.quadrado_exemplos
       (Indexador.cabecalho :: Indexador.linhas_exemplo)
     = Some {| Indexador.modelo_tfidf := modelo_exemplo;
               Indexador.normas := normas_exemplo |}
  /\ In 1%Z (PyDict.keys (produto_escalar modelo_exemplo ["cat"%string]))
  /\ exists norma_doc,
       PyDict.get Z.eq_dec normas_exemplo 1%Z = Some norma_doc.
Proof.
  assert (H2 : Indexador.executar Indexador.log10_exemplos
                 Indexador.quadrado_exemplos
                 (Indexador.cabecalho :: Indexador.linhas_exemplo)
               = Some {| Indexador.modelo_tfidf := modelo_exemplo;
                         Indexador.normas := normas_exemplo |})
    by (vm_compute; reflexivity).
  assert (H3 : In 1%Z (PyDict.keys
                         (produto_escalar modelo_exemplo ["cat"%string])))
    by (vm_compute; tauto).
  split; [reflexivity|]. split; [exact H2|]. split; [exact H3|].
  exact (@X20_norma_sempre_armazenada Indexador.log10_exemplos
           Indexador.quadrado_exemplos Indexador.cabecalho
           Indexador.linhas_exemplo _ ["cat"%string] 1%Z eq_refl H2 H3).
Defined.

(** *** Joining and splitting *)

Lemma append_vazio (p : string) : (p ++ "")%string = p.
Proof. induction p as [|a p IH]; simpl; congruence. Qed.

Lemma split_desde_sem_espaco (termo resto atual : string) :
  Texto.sem_espaco termo = true ->
  split_desde (termo ++ resto) atual = split_desde resto (atual ++ termo).
Proof.
  revert atual. induction termo as [|c termo IH]; intros atual H; simpl.
  - assert (E : (atual ++ "")%string = atual).
    { clear. induction atual as [|a atual IH]; simpl; congruence. }
    rewrite E. reflexivity.
  - simpl in H. apply andb_prop in H. destruct H as [Hc Ht].
    apply negb_true_iff in Hc. rewrite Hc. rewrite IH by exact Ht.
    f_equal. clear. induction atual as [|a atual IH]; simpl; congruence.
Qed.

Lemma split_join (termos : list string) :
  (forall t, In t termos -> t <> EmptyString /\ Texto.sem_espaco t = true) ->
  split (Texto.join_espaco termos) = termos.
Proof.
  unfold split. induction termos as [|p termos IH]; intros H; [reflexivity|].
  destruct (H p (or_introl eq_refl)) as [Hne Hs].
  destruct termos as [|p2 termos].
  - cbn [Texto.join_espaco].
    rewrite <- (append_vazio p) at 1.
    rewrite split_desde_sem_espaco by exact Hs. simpl.
    destruct p; [congruence | reflexivity].
  - cbn [Texto.join_espaco]. rewrite split_desde_sem_espaco by exact Hs.
    cbn [append split_desde]. change (isspace " ") with true. cbv iota.
    destruct p as [|c0 p0]; [congruence|]. f_equal.
    apply IH. intros t I. apply H. now right.
Qed.

(** X21: joining the terms of a text with single spaces, as the query
    processor does before it writes a query, gives a text that splits
    into the same terms. *)
Theorem X21_split_de_join (texto : string) :
  split (Texto.join_espaco (split texto)) = split texto.
Proof.
  apply split_join. intros t I.
  apply (split_desde_termos texto EmptyString t eq_refl I).
Qed.

End BuscadorExtras.

(* ================================================================= *)
(** ** The generator of the inverted list *)

Module GeradorExtras.
Import GeradorListaInvertida.

Lemma set_set {K V : Type} (dec : forall x y : K, {x = y} + {x <> y})
  (d : PyDict.dict K V) (k : K) (v v' : V) :
  PyDict.set dec (PyDict.set dec d k v) k v' = PyDict.set dec d k v'.
Proof.
  induction d as [|[k0 v0] d IH]; simpl.
  - destruct (dec k k); congruence.
  - destruct (dec k k0) as [E|N]; simpl.
    + destruct (dec k k0); congruence.
    + destruct (dec k k0); [contradiction|]. rewrite IH. reflexivity.
Qed.

Lemma anexar_eq (li : PyDict.dict string (list Z)) (palavra : string)
  (n : Z) :
  anexar li palavra n
  = PyDict.set string_dec li palavra
      (PyDict.get_default string_dec li palavra [] ++ [n]).
Proof.
  unfold anexar, PyDict.defaultdict_getitem, PyDict.get_default.
  destruct (PyDict.get string_dec li palavra); [reflexivity|].
  apply set_set.
Qed.

Lemma anexar_get (li : PyDict.dict string (list Z)) (palavra p : string)
  (n : Z) :
  PyDict.get_default string_dec (anexar li palavra n) p []
  = PyDict.get_default string_dec li p []
    ++ (if string_dec palavra p then [n] else []).
Proof.
  rewrite anexar_eq. unfold PyDict.get_default at 1.
  destruct (string_dec palavra p) as [E|N].
  - subst p. rewrite get_set_eq. reflexivity.
  - rewrite get_set_neq by exact N. rewrite app_nil_r. reflexivity.
Qed.


Section Gerador.
Variable normalizar : string -> list string.

Lemma anexar_palavras (palavras : list string) (n : Z)
  (li : PyDict.dict string (list Z)) (p : string) :
  PyDict.get_default string_dec
    (fold_left (fun li' palavra => anexar li' palavra n) palavras li) p []
  = PyDict.get_default string_dec li p []
    ++ repeat n (count_occ string_dec palavras p).
Proof.
  revert li. induction palavras as [|w palavras IH]; intros li; simpl.
  - rewrite app_nil_r. reflexivity.
  - rewrite IH, anexar_get, <- app_assoc.
    destruct (string_dec w p); reflexivity.
Qed.


Lemma processar_registros_get (registros : list registro)
  (li : PyDict.dict string (list Z)) (p : string) :
  PyDict.get_default string_dec (processar_registros normalizar registros li)
    p []
  = PyDict.get_default string_dec li p []
    ++ ocorrencias_da_palavra normalizar p (processados registros).
Proof.
  revert li. induction registros as [|r registros IH]; intros li; simpl.
  - rewrite app_nil_r. reflexivity.
  - destruct (recordnum r) as [[n|]|].
    + destruct (texto_do_registro r) as [texto|].
      * rewrite IH, anexar_palavras. unfold ocorrencias_da_palavra. simpl.
        rewrite <- app_assoc. reflexivity.
      * apply IH.
    + rewrite app_nil_r. reflexivity.
    + apply IH.
Qed.



(** X22: the sequence that the generator builds for a word lists, file
    after file and record after record, the number of every indexed
    record as many times as the word occurs in the text of the record.
    The indexed records are those with a number and a text; a file
    that cannot be parsed adds nothing, and a record whose number
    cannot be read drops the rest of its file only. *)
Theorem X22_sequencia_da_palavra
  (arquivos : list (option (list registro))) (p : string) :
  PyDict.get_default string_dec (_processar_arquivos normalizar arquivos [])
    p []
  = ocorrencias_da_palavra normalizar p (processados_dos_arquivos arquivos).
Proof.
  assert (H : forall li,
             PyDict.get_default string_dec
               (_processar_arquivos normalizar arquivos li) p []
             = PyDict.get_default string_dec li p []
               ++ ocorrencias_da_palavra normalizar p
                    (processados_dos_arquivos arquivos)).
  { unfold _processar_arquivos, processados_dos_arquivos.
    induction arquivos as [|a arquivos IH]; intros li; simpl.
    - rewrite app_nil_r. reflexivity.
    - rewrite IH. unfold ocorrencias_da_palavra. rewrite flat_map_app.
      destruct a as [registros|]; simpl.
      + rewrite processar_registros_get, <- app_assoc. reflexivity.
      + reflexivity. }
  rewrite H. reflexivity.
Qed.
End Gerador.

(** *** The file that the Indexador reads *)





End GeradorExtras.
